(** * GuyPS: the offline map package controller of [main.py]

    A shallow embedding of the controller code of [main.py] (the map view,
    the download orchestration and the progress probe) together with the
    properties its specification states about it.

    The program is a Kivy application: almost every statement is an effect
    on the widget tree, the clock, the file system or a background thread.
    The embedding threads an explicit [World] through the methods and
    raises Python exceptions through a small state-and-error monad; the
    effects performed before an exception is raised stay in the world, as
    they do in Python. *)

From stdpp Require Import gmap strings list pretty.
From Stdlib Require Import Ascii QArith.

Local Open Scope string_scope.
Local Open Scope Z_scope.
Local Open Scope list_scope.

(** ** Python strings and POSIX paths *)

Module Py.

(** [s.startswith(p)] *)
Fixpoint startswith (p s : string) : bool :=
  match p, s with
  | EmptyString, _ => true
  | String a p', String b s' => if decide (a = b) then startswith p' s' else false
  | String _ _, EmptyString => false
  end.

(** [s[len(p):]] when [s.startswith(p)] *)
Fixpoint strip_prefix (p s : string) : option string :=
  match p, s with
  | EmptyString, _ => Some s
  | String a p', String b s' => if decide (a = b) then strip_prefix p' s' else None
  | String _ _, EmptyString => None
  end.

(** [s.endswith(p)] *)
Definition endswith (p s : string) : bool :=
  startswith (String.rev p) (String.rev s).

(** [c in s] for a character [c] *)
Fixpoint contains (c : ascii) (s : string) : bool :=
  match s with
  | EmptyString => false
  | String a s' => if decide (a = c) then true else contains c s'
  end.

(** [s.split(sep)] for a one-character separator, as a scan that keeps
    the component being read in [cur] (reversed). *)
Fixpoint split_go (sep : ascii) (cur : string) (s : string) : list string :=
  match s with
  | EmptyString => [String.rev cur]
  | String a s' =>
      if decide (a = sep) then String.rev cur :: split_go sep "" s'
      else split_go sep (String a cur) s'
  end.

Definition split (sep : ascii) (s : string) : list string := split_go sep "" s.

(** [range(lo, hi)] *)
Definition range (lo hi : Z) : list Z :=
  map (fun i => lo + Z.of_nat i) (seq 0 (Z.to_nat (hi - lo))).

(** [posixpath.join(a, b)] *)
Definition os_path_join (a b : string) : string :=
  if startswith "/" b then b
  else if decide (a = "") then b
  else if endswith "/" a then a +:+ b
  else a +:+ "/" +:+ b.

(** The proper ancestors of a path, outermost first: the prefixes that
    end just before a ["/"], the root and the empty prefix left out.
    [os.makedirs] creates those that are missing. *)
Fixpoint ancestors_go (pre : string) (s : string) : list string :=
  match s with
  | EmptyString => []
  | String a s' =>
      if decide (a = "/"%char)
      then (if decide (pre = "") then [] else [String.rev pre])
             ++ ancestors_go (String a pre) s'
      else ancestors_go (String a pre) s'
  end.

Definition ancestors (p : string) : list string := ancestors_go "" p.

End Py.

(** ** Exceptions and results *)

(** The exceptions the modelled code can raise. *)
Inductive exn : Type :=
  | GeocoderServiceError (message : string)  (* geopy.exc *)
  | UnboundLocalError (name : string)        (* a local read before assignment *)
  | ValueError                               (* float(), int(), tuple unpacking *)
  | OSError (path : string)                  (* os.makedirs, os.remove *)
  | InvalidFormatError (path : string).      (* landez, reading a package *)

Inductive Result (A : Type) : Type :=
  | Ok (a : A)
  | Raise (e : exn).
Arguments Ok {A} a.
Arguments Raise {A} e.

(** ** The data of the program *)

(** A file system entry. A package file holds the key/value metadata
    table that [MBTilesReader.metadata()] returns as a dict. *)
Inductive node : Type :=
  | Dir
  | MBTilesFile (metadata : gmap string string)
  | OtherFile.

Inductive Widget : Type := MapViewWidget | StatusBarWidget.

Section Data.

(** Python's [float]: the code only parses, stores and reorders
    floats, so their representation is left open. *)
Context {float : Type}.

(** A landez bounding box [(min_lon, min_lat, max_lon, max_lat)]. *)
Definition Bbox : Type := float * float * float * float.

(** The fields of a geopy [Location] the program reads:
    [location.address], [.latitude], [.longitude], [.raw['type']]
    and [.raw['boundingbox']]. *)
Record Location : Type := mkLocation {
  address : string;
  latitude : float;
  longitude : float;
  raw_type : string;
  raw_boundingbox : list string
}.

(** What [Nominatim().geocode(text)] does. *)
Inductive GeocodeReply : Type :=
  | GeocodeRaises (message : string)
  | GeocodeNone
  | GeocodeFound (location : Location).

(** The keyword argument of a Kivy [Animation]: the property that is
    animated and its final value. *)
Inductive AnimTarget : Type :=
  | animated_zoom_property (zoom : Z)
  | animated_latlon_property (latitude longitude : float)
  | alpha_color (alpha : Q).

(** Kivy animations: [a & b] is [Parallel a b], [a + b] is
    [Sequence a b]. *)
Inductive Animation : Type :=
  | Anim (target : AnimTarget) (duration : Q)
  | Parallel (a b : Animation)
  | Sequence (a b : Animation).

(** The closures the program hands to the framework, by the call they
    make when invoked. *)
Inductive Callback : Type :=
  | call_download_for_offline
      (filepath : string) (bbox : Bbox) (zoomlevels : list Z) (delete : bool)
  | call_probe_mb_tiles_builder_thread (mb mb_run_thread : nat)
  | call_clean_status_message.

Inductive Popup : Type :=
  | PopupMessage (title body : string)
  | ConfirmPopup (title text : string) (on_yes : Callback).

(** An event of the Kivy [Clock]: [schedule_interval] events loop,
    [schedule_once] events do not. Every scheduling call creates a
    distinct event object, told apart here by [event_id]. *)
Record ClockEvent : Type := mkClockEvent {
  event_id : nat;
  callback : Callback;
  timeout : Q;
  loop : bool
}.

(** The map source of the view: the online default [MapSource()] or
    [MBTilesCompositeMapSource(paths)], the composite over the listed
    package files in the order given. *)
Inductive Source : Type :=
  | MapSource
  | MBTilesCompositeMapSource (mbtiles_paths : list string).

(** A landez [MBTilesBuilder]: the constructor arguments, the coverages
    added and the two progress counters the probe reads. The counters
    are written by the builder's [run] only, in the background thread. *)
Record MBTilesBuilder : Type := mkMBTilesBuilder {
  filepath : string;
  cache : bool;
  coverages : list (Bbox * list Z);
  rendered : N;
  nbtiles : N
}.

(** A [Thread(target=mb.run, kwargs={'force': force})] once started. *)
Record Thread : Type := mkThread {
  target_run : nat;
  force : bool;
  is_alive : bool
}.

(** The state the methods act on: the file system (in enumeration
    order), the viewport and map source of [CustomMapView], the
    animations started, the popups opened, the status message of
    [MapViewScreen], the clock (its events and how many it has ever
    created), and the builders and threads created. *)
Record World : Type := mkWorld {
  fs : list (string * node);
  lat : float;
  lon : float;
  zoom : Z;
  map_source : Source;
  animations : list (Widget * Animation);
  popups : list Popup;
  status_message : string;
  clock : list ClockEvent;
  clock_created : nat;
  builders : list MBTilesBuilder;
  threads : list Thread
}.

End Data.

Arguments Bbox : clear implicits.
Arguments Location : clear implicits.
Arguments GeocodeReply : clear implicits.
Arguments AnimTarget : clear implicits.
Arguments Animation : clear implicits.
Arguments Callback : clear implicits.
Arguments Popup : clear implicits.
Arguments ClockEvent : clear implicits.
Arguments MBTilesBuilder : clear implicits.
Arguments World : clear implicits.

(** The services the program calls and the embedding does not look
    into: Python's [float] and [int] on strings ([None] stands for a
    [ValueError]), the Nominatim geocoder, whether the operating system
    lets [os.makedirs] create a directory, and Kivy's [user_data_dir]. *)
Class Host (float : Type) : Type := {
  py_float : string -> option float;
  py_int : string -> option Z;
  geocode : string -> GeocodeReply float;
  makedirs_permitted : string -> bool;
  user_data_dir : string
}.

(** ** The state-and-error monad *)

Section Monad.
Context {float : Type}.

Definition M (A : Type) : Type := World float -> Result A * World float.

Definition ret {A} (a : A) : M A := fun w => (Ok a, w).

Definition raise {A} (e : exn) : M A := fun w => (Raise e, w).

Definition bind {A B} (m : M A) (k : A -> M B) : M B :=
  fun w =>
    match m w with
    | (Ok a, w') => k a w'
    | (Raise e, w') => (Raise e, w')
    end.

Definition gets {A} (f : World float -> A) : M A := fun w => (Ok (f w), w).

Definition modify (f : World float -> World float) : M unit :=
  fun w => (Ok tt, f w).

(** A pure computation that may raise. *)
Definition lift {A} (r : Result A) : M A := fun w => (r, w).

(** Reading a local variable that is assigned on some paths only. *)
Definition read_local {A} (name : string) (v : option A) : M A :=
  match v with
  | Some a => ret a
  | None => raise (UnboundLocalError name)
  end.

End Monad.

Arguments M : clear implicits.

Notation "'let*' x ':=' m 'in' k" := (bind m (fun x => k))
  (at level 10, x name, m at level 100, k at level 200).
Notation "m1 '>>' m2" := (bind m1 (fun _ => m2))
  (at level 100, m2 at level 200, right associativity).

(** ** Field updates of the world *)

Section Updates.
Context {float : Type}.
Implicit Type w : World float.

Definition set_fs (v : list (string * node)) w : World float :=
  mkWorld v (lat w) (lon w) (zoom w) (map_source w) (animations w)
    (popups w) (status_message w) (clock w) (clock_created w) (builders w) (threads w).

Definition set_zoom (v : Z) w : World float :=
  mkWorld (fs w) (lat w) (lon w) v (map_source w) (animations w)
    (popups w) (status_message w) (clock w) (clock_created w) (builders w) (threads w).

Definition set_map_source (v : Source) w : World float :=
  mkWorld (fs w) (lat w) (lon w) (zoom w) v (animations w)
    (popups w) (status_message w) (clock w) (clock_created w) (builders w) (threads w).

Definition set_animations (v : list (Widget * Animation float)) w : World float :=
  mkWorld (fs w) (lat w) (lon w) (zoom w) (map_source w) v
    (popups w) (status_message w) (clock w) (clock_created w) (builders w) (threads w).

Definition set_popups (v : list (Popup float)) w : World float :=
  mkWorld (fs w) (lat w) (lon w) (zoom w) (map_source w) (animations w)
    v (status_message w) (clock w) (clock_created w) (builders w) (threads w).

Definition set_status_message (v : string) w : World float :=
  mkWorld (fs w) (lat w) (lon w) (zoom w) (map_source w) (animations w)
    (popups w) v (clock w) (clock_created w) (builders w) (threads w).

Definition set_clock (v : list (ClockEvent float)) w : World float :=
  mkWorld (fs w) (lat w) (lon w) (zoom w) (map_source w) (animations w)
    (popups w) (status_message w) v (clock_created w) (builders w) (threads w).

Definition set_clock_created (v : nat) w : World float :=
  mkWorld (fs w) (lat w) (lon w) (zoom w) (map_source w) (animations w)
    (popups w) (status_message w) (clock w) v (builders w) (threads w).

Definition set_builders (v : list (MBTilesBuilder float)) w : World float :=
  mkWorld (fs w) (lat w) (lon w) (zoom w) (map_source w) (animations w)
    (popups w) (status_message w) (clock w) (clock_created w) v (threads w).

Definition set_threads (v : list Thread) w : World float :=
  mkWorld (fs w) (lat w) (lon w) (zoom w) (map_source w) (animations w)
    (popups w) (status_message w) (clock w) (clock_created w) (builders w) v.

End Updates.

(** ** The file system and the services of [os], [glob] and landez *)

Section FileSystem.
Context {float : Type} `{!Host float}.

Fixpoint assoc (p : string) (l : list (string * node)) : option node :=
  match l with
  | [] => None
  | (q, n) :: l' => if decide (q = p) then Some n else assoc p l'
  end.

(** [os.path.exists(p)] *)
Definition path_exists (p : string) (w : World float) : bool :=
  match assoc p (fs w) with Some _ => true | None => false end.

Definition os_path_exists (p : string) : M float bool := gets (path_exists p).

(** [os.makedirs(p)]: raises [OSError] when [p] exists or the system
    refuses, else creates the missing ancestors and [p]. *)
Definition os_makedirs (p : string) : M float unit :=
  let* there := os_path_exists p in
  if (there : bool) then raise (OSError p)
  else if makedirs_permitted p then
    modify (fun w =>
      set_fs (fs w
              ++ map (fun a => (a, Dir))
                   (filter (fun a => path_exists a w = false) (Py.ancestors p))
              ++ [(p, Dir)]) w)
  else raise (OSError p).

(** [os.remove(p)]: removes a file, raises [OSError] on a directory
    or a missing path. *)
Definition os_remove (p : string) : M float unit :=
  let* entry := gets (fun w => assoc p (fs w)) in
  match entry with
  | Some (MBTilesFile _) | Some OtherFile =>
      modify (fun w => set_fs (filter (fun e => e.1 ≠ p) (fs w)) w)
  | Some Dir | None => raise (OSError p)
  end.

(** [posixpath.split(p)]: the part up to the last slash, without its
    trailing slashes unless it is all slashes, and the part after. *)
Fixpoint break_slash (tail rs : string) : string * string :=
  match rs with
  | EmptyString => (tail, EmptyString)
  | String a rs' =>
      if decide (a = "/"%char) then (tail, rs) else break_slash (String a tail) rs'
  end.

Fixpoint lstrip_slash (s : string) : string :=
  match s with
  | String a s' => if decide (a = "/"%char) then lstrip_slash s' else s
  | EmptyString => EmptyString
  end.

Definition os_path_split (p : string) : string * string :=
  let '(tail, rhead) := break_slash "" (String.rev p) in
  let stripped := lstrip_slash rhead in
  (String.rev (if decide (stripped = "") then rhead else stripped), tail).

(** The names [os.listdir(d)] enumerates, in the order of the file
    system; the empty list when [d] is not a directory ([glob]
    swallows the error). *)
Definition dir_prefix (d : string) : string :=
  if Py.endswith "/" d then d else d +:+ "/".

Definition child_name (d : string) (e : string * node) : option string :=
  match Py.strip_prefix (dir_prefix d) e.1 with
  | Some n => if decide (n = "") then None
              else if Py.contains "/"%char n then None else Some n
  | None => None
  end.

Definition listdir (d : string) (w : World float) : list string :=
  match assoc d (fs w) with
  | Some Dir => omap (child_name d) (fs w)
  | _ => []
  end.

(** [fnmatch.fnmatchcase(name, pat)] for patterns made of literal
    characters, [*] and [?]. *)
Fixpoint fnmatch (pat : string) : string -> bool :=
  match pat with
  | EmptyString => fun name => bool_decide (name = "")
  | String c pat' =>
      if decide (c = "*"%char) then
        fix star (name : string) : bool :=
          fnmatch pat' name
          || match name with
             | String _ name' => star name'
             | EmptyString => false
             end
      else
        fun name =>
          match name with
          | String a name' =>
              (if decide (c = "?"%char) then true else bool_decide (a = c))
              && fnmatch pat' name'
          | EmptyString => false
          end
  end.

(** [glob._ishidden] *)
Definition ishidden (s : string) : bool := Py.startswith "." s.

(** [glob.glob(pathname)] for a pathname whose directory part has no
    pattern character: the entries of the directory that match the
    last component, hidden names left out unless the pattern is
    hidden, each joined to the directory, in enumeration order. *)
Definition glob_glob (pathname : string) (w : World float) : list string :=
  let '(dirname, basename) := os_path_split pathname in
  map (Py.os_path_join dirname)
    (filter (fun n => fnmatch basename n = true)
       (filter (fun n => ishidden basename = true ∨ ishidden n = false)
          (listdir dirname w))).

(** [MBTilesReader(path).metadata()]: the metadata table of a package
    file as a dict; landez raises [InvalidFormatError] on anything
    else. *)
Definition MBTilesReader_metadata (path : string) : M float (gmap string string) :=
  let* entry := gets (fun w => assoc path (fs w)) in
  match entry with
  | Some (MBTilesFile metadata) => ret metadata
  | _ => raise (InvalidFormatError path)
  end.

End FileSystem.

(** ** The program *)

Definition OFFLINE_MIN_ZOOM : Z := 12.
Definition OFFLINE_MAX_ZOOM : Z := 15.

(** [Toolbar.MAX_ALPHA] *)
Definition MAX_ALPHA : Q := 6 # 10.

Section Program.
Context {float : Type} `{!Host float}.

(** *** Framework calls *)

(** [anim.start(widget)] *)
Definition Animation_start (widget : Widget) (anim : Animation float) : M float unit :=
  modify (fun w => set_animations (animations w ++ [(widget, anim)]) w).

(** [popup.open()] *)
Definition Popup_open (popup : Popup float) : M float unit :=
  modify (fun w => set_popups (popups w ++ [popup]) w).

(** [Clock.unschedule(callback)] *)
Definition Clock_unschedule (cb : Callback float -> bool) : M float unit :=
  modify (fun w => set_clock (filter (fun ev => cb (callback ev) = false) (clock w)) w).

(** The event a scheduling call creates. *)
Definition Clock_create (cb : Callback float) (t : Q) (loop : bool) : M float unit :=
  modify (fun w =>
    set_clock_created (S (clock_created w))
      (set_clock (clock w ++ [mkClockEvent (clock_created w) cb t loop]) w)).

(** [Clock.schedule_once(callback, timeout)] *)
Definition Clock_schedule_once (cb : Callback float) (t : Q) : M float unit :=
  Clock_create cb t false.

(** [Clock.schedule_interval(callback, timeout)] *)
Definition Clock_schedule_interval (cb : Callback float) (t : Q) : M float unit :=
  Clock_create cb t true.

(** [event.cancel()] *)
Definition Clock_cancel (id : nat) : M float unit :=
  modify (fun w => set_clock (filter (fun ev => event_id ev ≠ id) (clock w)) w).

(** [MBTilesBuilder(filepath=filepath, cache=cache)]: a new builder
    with no coverage and both counters at zero; the result is its
    index among the builders. *)
Definition MBTilesBuilder_new (filepath : string) (cache : bool) : M float nat :=
  let* mb := gets (fun w => length (builders w)) in
  modify (fun w =>
    set_builders (builders w ++ [mkMBTilesBuilder filepath cache [] 0%N 0%N]) w) >>
  ret mb.

(** [mb.add_coverage(bbox=bbox, zoomlevels=zoomlevels)] *)
Definition add_coverage (mb : nat) (bbox : Bbox float) (zoomlevels : list Z)
  : M float unit :=
  modify (fun w =>
    set_builders
      (alter (fun b => mkMBTilesBuilder (filepath b) (cache b)
                         (coverages b ++ [(bbox, zoomlevels)])
                         (rendered b) (nbtiles b))
         mb (builders w)) w).

(** [Thread(target=mb.run, kwargs={'force': force})] followed by
    [start()]; the result is the index of the thread. *)
Definition Thread_start (mb : nat) (force : bool) : M float nat :=
  let* t := gets (fun w => length (threads w)) in
  modify (fun w => set_threads (threads w ++ [mkThread mb force true]) w) >>
  ret t.

(** [mb_run_thread.is_alive()]; a thread the world does not know has
    never been started. *)
Definition Thread_is_alive (t : nat) : M float bool :=
  gets (fun w => match threads w !! t with
                 | Some th => is_alive th
                 | None => false
                 end).

(** [mb.rendered] and [mb.nbtiles] *)
Definition mb_rendered (mb : nat) : M float N :=
  gets (fun w => match builders w !! mb with Some b => rendered b | None => 0%N end).

Definition mb_nbtiles (mb : nat) : M float N :=
  gets (fun w => match builders w !! mb with Some b => nbtiles b | None => 0%N end).

(** *** [MapViewApp] *)

(** [MapViewApp.mbtiles_directory] *)
Definition mbtiles_directory : string :=
  Py.os_path_join user_data_dir "mbtiles".

(** [MapViewApp.mbtiles_paths] *)
Definition mbtiles_paths (w : World float) : list string :=
  let filepath := Py.os_path_join mbtiles_directory "*.mbtiles" in
  let filepaths := glob_glob filepath w in
  filepaths.

(** *** [Toolbar] and [MapViewScreen] *)

(** [Toolbar.show()] and [Toolbar.hide()], animated *)
Definition Toolbar_show : M float unit :=
  Animation_start StatusBarWidget (Anim (alpha_color MAX_ALPHA) 1).

Definition Toolbar_hide : M float unit :=
  Animation_start StatusBarWidget (Anim (alpha_color 0) 1).

Definition is_clean_status_message (cb : Callback float) : bool :=
  match cb with call_clean_status_message => true | _ => false end.

(** [MapViewScreen.update_status_message(text, lifetime)] *)
Definition update_status_message (text : string) (lifetime : Q) : M float unit :=
  Toolbar_show >>
  modify (set_status_message text) >>
  Clock_unschedule is_clean_status_message >>
  Clock_schedule_once call_clean_status_message lifetime.

(** [MapViewScreen._clean_status_message()] *)
Definition clean_status_message : M float unit :=
  modify (set_status_message "") >>
  Toolbar_hide.

(** *** [CustomMapView] *)

(** [CustomMapView.animated_center_on(latitude, longitude)] *)
Definition animated_center_on (latitude longitude : float) : M float unit :=
  let widget := MapViewWidget in
  let* initial_zoom := gets zoom in
  let anim := Anim (animated_zoom_property 5) 1 in
  let anim := Parallel anim (Anim (animated_latlon_property latitude longitude) 1) in
  let anim := Sequence anim (Anim (animated_zoom_property initial_zoom) 1) in
  Animation_start widget anim.

(** [CustomMapView.search(text)] *)
Definition search (text : string) : M float unit :=
  match geocode text with
  | GeocodeRaises message =>
      Popup_open (PopupMessage "Error" message)
  | GeocodeNone =>
      Popup_open (PopupMessage "Error" "Can't find location.")
  | GeocodeFound location =>
      let latitude := latitude location in
      let longitude := longitude location in
      animated_center_on latitude longitude
  end.

(** [longitude, latitude, zoom = map(float, s.split(","))] *)
Definition unpack_center (s : string) : Result (float * float * float) :=
  match mapM py_float (Py.split ","%char s) with
  | Some [longitude; latitude; zoom] => Ok (longitude, latitude, zoom)
  | _ => Raise ValueError
  end.

(** [int(metadata.get("minzoom", OFFLINE_MIN_ZOOM))] *)
Definition get_min_zoom (metadata : gmap string string) : Result Z :=
  match metadata !! "minzoom" with
  | Some s => match py_int s with Some z => Ok z | None => Raise ValueError end
  | None => Ok OFFLINE_MIN_ZOOM
  end.

(** [CustomMapView.load_mbtiles(mbtiles)]. The locals [longitude],
    [latitude] and [zoom] are bound only under the test on
    ["center"]. *)
Definition load_mbtiles (mbtiles : string) : M float unit :=
  let* mbtiles_paths := gets mbtiles_paths in
  let mbtiles_path := Py.os_path_join mbtiles_directory mbtiles in
  let map_source := MBTilesCompositeMapSource mbtiles_paths in
  modify (set_map_source map_source) >>
  let* metadata := MBTilesReader_metadata mbtiles_path in
  let* center :=
    match metadata !! "center" with
    | Some s => let* c := lift (unpack_center s) in ret (Some c)
    | None => ret None
    end in
  let* latitude := read_local "latitude" ((fun c => c.1.2) <$> center) in
  let* longitude := read_local "longitude" ((fun c => c.1.1) <$> center) in
  animated_center_on latitude longitude >>
  let* min_zoom := lift (get_min_zoom metadata) in
  modify (set_zoom min_zoom).

(** [CustomMapView.load_default_map_source()] *)
Definition load_default_map_source : M float unit :=
  modify (set_map_source MapSource).

End Program.

Section Controller.
Context {float : Type} `{!Host float}.

(** [Controller.geopy_bbox_to_bbox(geopy_bbox)]: no world is read or
    written. *)
Definition geopy_bbox_to_bbox (geopy_bbox : list string) : Result (Bbox float) :=
  match mapM py_float geopy_bbox with
  | Some [min_lat; max_lat; min_lon; max_lon] =>
      let bbox := (min_lon, min_lat, max_lon, max_lat) in
      Ok bbox
  | _ => Raise ValueError
  end.

(** ["Downloading tiles %s/%s" % (a, b)] *)
Definition downloading_tiles (a b : N) : string :=
  "Downloading tiles " +:+ pretty a +:+ "/" +:+ pretty b.

(** [Controller.probe_mb_tiles_builder_thread(mb, mb_run_thread)];
    the result is [Some false] for [return False] and [None] when the
    method falls off its end. *)
Definition probe_mb_tiles_builder_thread (mb mb_run_thread : nat)
  : M float (option bool) :=
  let* rendered := mb_rendered mb in
  let* nbtiles := mb_nbtiles mb in
  update_status_message (downloading_tiles rendered nbtiles) 10 >>
  let* alive := Thread_is_alive mb_run_thread in
  if negb alive then
    let* nbtiles := mb_nbtiles mb in
    update_status_message (downloading_tiles nbtiles nbtiles) 10 >>
    ret (Some false)
  else ret None.

(** [Controller.download_for_offline(filepath, bbox, zoomlevels, delete)] *)
Definition download_for_offline
    (filepath : string) (bbox : Bbox float) (zoomlevels : list Z) (delete : bool)
  : M float unit :=
  (if delete then os_remove filepath else ret tt) >>
  let* mb := MBTilesBuilder_new filepath true in
  add_coverage mb bbox zoomlevels >>
  let* mb_run_thread := Thread_start mb false in
  Clock_schedule_interval
    (call_probe_mb_tiles_builder_thread mb mb_run_thread) (1 # 2).

Definition override_question : string :=
  "File already exists." +:+ String "010"%char "Do you want to override?".

(** [Controller.prepare_download_for_offline2(filename, bbox, zoomlevels)] *)
Definition prepare_download_for_offline2
    (filename : string) (bbox : Bbox float) (zoomlevels : list Z)
  : M float unit :=
  let* there := os_path_exists mbtiles_directory in
  (if (there : bool) then ret tt else os_makedirs mbtiles_directory) >>
  let filepath := Py.os_path_join mbtiles_directory filename in
  let* occupied := os_path_exists filepath in
  if (occupied : bool) then
    Popup_open
      (ConfirmPopup "File already exists" override_question
         (call_download_for_offline filepath bbox zoomlevels true)) >>
    update_status_message ("File already exists: " +:+ filename) 10
  else download_for_offline filepath bbox zoomlevels false.

(** [Controller.prepare_download_for_offline1(text)] *)
Definition prepare_download_for_offline1 (text : string) : M float unit :=
  match geocode text with
  | GeocodeRaises message => raise (GeocoderServiceError message)
  | GeocodeNone =>
      Popup_open (PopupMessage "Error" "Can't find location.")
  | GeocodeFound location =>
      if decide (raw_type location ≠ "city") then
        Popup_open (PopupMessage "Error" "Only cities are allowed.")
      else
        animated_center_on (latitude location) (longitude location) >>
        let city := hd "" (Py.split ","%char (address location)) in
        let geopy_bbox := raw_boundingbox location in
        let filename := city +:+ ".mbtiles" in
        let* bbox := lift (geopy_bbox_to_bbox geopy_bbox) in
        let zoomlevels := Py.range OFFLINE_MIN_ZOOM (OFFLINE_MAX_ZOOM + 1) in
        prepare_download_for_offline2 filename bbox zoomlevels
  end.

(** [Controller.load_mbtiles(mbtiles)] *)
Definition Controller_load_mbtiles (mbtiles : string) : M float unit :=
  load_mbtiles mbtiles.

(** *** How the framework runs what the program hands to it *)

(** Calling a closure; the result is what the closure returns, [None]
    for Python's [None]. *)
Definition run_callback (cb : Callback float) : M float (option bool) :=
  match cb with
  | call_download_for_offline filepath bbox zoomlevels delete =>
      download_for_offline filepath bbox zoomlevels delete >> ret None
  | call_probe_mb_tiles_builder_thread mb mb_run_thread =>
      probe_mb_tiles_builder_thread mb mb_run_thread
  | call_clean_status_message =>
      clean_status_message >> ret None
  end.

(** The user answers yes to a [ConfirmPopup]: [on_yes] is dispatched
    to the bound closure. *)
Definition ConfirmPopup_on_yes (popup : Popup float) : M float unit :=
  match popup with
  | ConfirmPopup _ _ on_yes => run_callback on_yes >> ret tt
  | PopupMessage _ _ => ret tt
  end.

(** The clock fires an event: a one-shot event is dropped and called;
    a looping event is called and cancelled when the call returns
    [False]. *)
Definition Clock_tick (ev : ClockEvent float) : M float unit :=
  if loop ev then
    let* r := run_callback (callback ev) in
    match r with
    | Some false => Clock_cancel (event_id ev)
    | _ => ret tt
    end
  else
    Clock_cancel (event_id ev) >>
    run_callback (callback ev) >> ret tt.

End Controller.

(** ** The vocabulary of the statements *)

Section Vocabulary.
Context {float : Type} `{!Host float}.

(** A name the glob keeps: not hidden and matching [*.mbtiles]. *)
Definition package_name (n : string) : Prop :=
  ishidden n = false ∧ fnmatch "*.mbtiles" n = true.

Global Instance package_name_dec n : Decision (package_name n).
Proof. unfold package_name. apply _. Defined.

(** The transition [animated_center_on] starts, from the zoom that is
    current when it is called. *)
Definition transition (initial_zoom : Z) (latitude longitude : float)
  : Animation float :=
  Sequence
    (Parallel (Anim (animated_zoom_property 5) 1)
              (Anim (animated_latlon_property latitude longitude) 1))
    (Anim (animated_zoom_property initial_zoom) 1).

(** The world once [load_mbtiles] has replaced the map source. *)
Definition with_packages (w : World float) : World float :=
  set_map_source (MBTilesCompositeMapSource (mbtiles_paths w)) w.

(** [os.path.isfile(p)] *)
Definition isfile (p : string) (w : World float) : bool :=
  match assoc p (fs w) with
  | Some (MBTilesFile _) | Some OtherFile => true
  | Some Dir | None => false
  end.

(** What [update_status_message] leaves behind. *)
Definition with_status (text : string) (lifetime : Q) (w : World float) : World float :=
  set_clock_created (S (clock_created w))
    (set_clock
       (filter (fun ev => is_clean_status_message (callback ev) = false) (clock w)
        ++ [mkClockEvent (clock_created w) call_clean_status_message lifetime false])
       (set_status_message text
          (set_animations
             (animations w ++ [(StatusBarWidget, Anim (alpha_color MAX_ALPHA) 1)]) w))).

(** What a download that starts leaves behind: a builder for the
    file with the requested coverage, its thread, and the probe on
    the clock every 0.5. *)
Definition with_download
    (filepath : string) (bbox : Bbox float) (zoomlevels : list Z) (w : World float)
  : World float :=
  set_clock_created (S (clock_created w))
    (set_clock
       (clock w
        ++ [mkClockEvent (clock_created w)
              (call_probe_mb_tiles_builder_thread
                 (length (builders w)) (length (threads w)))
              (1 # 2) true])
       (set_threads (threads w ++ [mkThread (length (builders w)) false true])
          (set_builders
             (builders w
              ++ [mkMBTilesBuilder filepath true [(bbox, zoomlevels)] 0%N 0%N]) w))).

(** A user-facing message has been published between [w] and [w']:
    a popup was opened or the status message changed. *)
Definition message_published (w w' : World float) : Prop :=
  popups w' ≠ popups w ∨ status_message w' ≠ status_message w.

(** The reading of C2 in which the refusal is handled: when the
    package directory is missing and cannot be created, the call
    returns normally with a message published and no thread
    started. *)
Definition denied_is_surfaced
    (filename : string) (bbox : Bbox float) (zoomlevels : list Z) (w : World float)
  : Prop :=
  path_exists mbtiles_directory w = false ->
  makedirs_permitted mbtiles_directory = false ->
  ∃ w', prepare_download_for_offline2 filename bbox zoomlevels w = (Ok tt, w')
        ∧ message_published w w'
        ∧ threads w' = threads w.

End Vocabulary.

(** ** A concrete host and concrete worlds

    Floats are read as exact decimal fractions, the geocoder knows a
    handful of texts, and the user data directory is either writable or
    not. The general statements below hold for every host; this one
    supplies the inputs on which they are run. *)

Module Sample.

Fixpoint digits (acc : N) (s : string) : option N :=
  match s with
  | EmptyString => Some acc
  | String a s' =>
      match Ascii.is_nat a with
      | Some d => digits (10 * acc + N.of_nat d)%N s'
      | None => None
      end
  end.

Definition number (s : string) : option N :=
  if decide (s = "") then None else digits 0 s.

Definition signed {A} (parse : string -> option A) (neg : A -> A) (s : string)
  : option A :=
  match s with
  | String "-" s' => neg <$> parse s'
  | _ => parse s
  end.

Definition dec_int : string -> option Z :=
  signed (fun s => Z.of_N <$> number s) Z.opp.

Definition dec_fraction (s : string) : option Q :=
  match Py.split "."%char s with
  | [i] => (fun n => inject_Z (Z.of_N n)) <$> number i
  | [i; f] =>
      match number i, number f with
      | Some n, Some m =>
          let scale := Pos.pow 10 (Pos.of_nat (String.length f)) in
          Some (Qmake (Z.of_N n * Zpos scale + Z.of_N m) scale)
      | _, _ => None
      end
  | _ => None
  end.

Definition dec_float : string -> option Q := signed dec_fraction Qopp.

Definition paris : Location Q :=
  mkLocation "Paris, Ile-de-France, France" (4885 # 100) (235 # 100) "city"
    ["48.81"; "48.90"; "2.22"; "2.47"].

Definition downing_street : Location Q :=
  mkLocation "10 Downing Street, London, United Kingdom" (5150 # 100) ((-13) # 100)
    "address" ["51.50"; "51.51"; "-0.13"; "-0.12"].

Definition nominatim (text : string) : GeocodeReply Q :=
  if decide (text = "Paris") then GeocodeFound paris
  else if decide (text = "10 Downing Street") then GeocodeFound downing_street
  else if decide (text = "Atlantis") then GeocodeNone
  else GeocodeRaises "Service not available".

(** A host whose user data directory is ["/data/app"]; [writable]
    says whether directories can be created. *)
Definition host (writable : bool) : Host Q :=
  {| py_float := dec_float;
     py_int := dec_int;
     geocode := nominatim;
     makedirs_permitted := fun _ => writable;
     user_data_dir := "/data/app" |}.

Definition paris_metadata : gmap string string :=
  {[ "center" := "2.35,48.85,12"; "minzoom" := "12"; "maxzoom" := "15" ]}.

Definition lyon_metadata : gmap string string :=
  {[ "minzoom" := "3"; "maxzoom" := "9" ]}.

Definition world_metadata : gmap string string :=
  {[ "center" := "0,0,2" ]}.

(** The view as [CustomMapView.__init__] leaves it, over the file
    system [files]. *)
Definition start (files : list (string * node)) : World Q :=
  mkWorld files (4361 # 100) (388 # 100) 8 MapSource [] [] "" [] 0 [] [].

(** No package directory yet. *)
Definition fresh : World Q :=
  start [("/data", Dir); ("/data/app", Dir)].

(** A package directory with three packages, a hidden file and a
    file that is no package. *)
Definition stocked : World Q :=
  start [("/data", Dir); ("/data/app", Dir); ("/data/app/mbtiles", Dir);
         ("/data/app/mbtiles/World.mbtiles", MBTilesFile world_metadata);
         ("/data/app/mbtiles/notes.txt", OtherFile);
         ("/data/app/mbtiles/Paris.mbtiles", MBTilesFile paris_metadata);
         ("/data/app/mbtiles/.Paris.mbtiles", OtherFile);
         ("/data/app/mbtiles/Lyon.mbtiles", MBTilesFile lyon_metadata)].

(** A download of four tiles out of ten whose thread has died. *)
Definition interrupted : World Q :=
  mkWorld (fs stocked) (4361 # 100) (388 # 100) 8 MapSource [] [] ""
    [mkClockEvent 0 (call_probe_mb_tiles_builder_thread 0 0) (1 # 2) true] 1
    [mkMBTilesBuilder "/data/app/mbtiles/Nice.mbtiles" true
       [((1 # 1, 2 # 1, 3 # 1, 4 # 1), [12; 13])] 4 10]
    [mkThread 0 false false].

(** The request for Paris: destination, coverage and zoom levels. *)
Definition paris_path : string := "/data/app/mbtiles/Paris.mbtiles".

Definition paris_bbox : Bbox Q := (222 # 100, 4881 # 100, 247 # 100, 4890 # 100).

Definition offline_levels : list Z := [12; 13; 14; 15].

End Sample.

(** ** The offline maps screen *)

Section Screens.
Context {float : Type} `{!Host float}.

(** [posixpath.basename(p)]: what follows the last slash. *)
Definition os_path_basename (p : string) : string :=
  (break_slash "" (String.rev p)).1.

(** [OfflineMapsScreen.available_offline_maps()] *)
Definition available_offline_maps (w : World float) : list string :=
  let filepaths := mbtiles_paths w in
  let filenames := map os_path_basename filepaths in
  filenames.

End Screens.

(** ** More vocabulary: the clock and the popups *)

Section ClockVocabulary.
Context {float : Type}.

(** The events of the clock that will clear the status message. *)
Definition pending_cleanups (w : World float) : list (ClockEvent float) :=
  filter (fun ev => is_clean_status_message (callback ev) = true) (clock w).

(** The other events of the clock, the probes among them. *)
Definition other_events (w : World float) : list (ClockEvent float) :=
  filter (fun ev => is_clean_status_message (callback ev) = false) (clock w).

(** Every event of the clock was created by the clock: its identity is
    below the number of events created so far. *)
Definition clock_ids_fresh (w : World float) : Prop :=
  ∀ ev, ev ∈ clock w -> (event_id ev < clock_created w)%nat.

(** The question [prepare_download_for_offline2] asks about a path. *)
Definition override_popup
    (filepath : string) (bbox : Bbox float) (zoomlevels : list Z) : Popup float :=
  ConfirmPopup "File already exists" override_question
    (call_download_for_offline filepath bbox zoomlevels true).

End ClockVocabulary.

(** ** More concrete worlds *)

Module Scenes.

(** The package directory holds a directory named like a package. *)
Definition with_folder : World Q :=
  Sample.start
    [("/data", Dir); ("/data/app", Dir); ("/data/app/mbtiles", Dir);
     ("/data/app/mbtiles/Alps.mbtiles", Dir);
     ("/data/app/mbtiles/Paris.mbtiles", MBTilesFile Sample.paris_metadata)].

(** Packages whose metadata cannot be used as it is. *)
Definition bad_center_metadata : gmap string string :=
  {[ "center" := "2.35,48.85"; "minzoom" := "12" ]}.

Definition bad_minzoom_metadata : gmap string string :=
  {[ "center" := "2.35,48.85,12"; "minzoom" := "twelve" ]}.

Definition no_minzoom_metadata : gmap string string :=
  {[ "center" := "2.35,48.85,12" ]}.

Definition odd_packages : World Q :=
  Sample.start
    [("/data", Dir); ("/data/app", Dir); ("/data/app/mbtiles", Dir);
     ("/data/app/mbtiles/Cut.mbtiles", MBTilesFile bad_center_metadata);
     ("/data/app/mbtiles/Words.mbtiles", MBTilesFile bad_minzoom_metadata);
     ("/data/app/mbtiles/Plain.mbtiles", MBTilesFile no_minzoom_metadata)].

(** A download of four tiles out of ten that is still running, beside
    a pending status message. *)
Definition running : World Q :=
  mkWorld (fs Sample.stocked) (4361 # 100) (388 # 100) 8 MapSource [] [] "Hello"
    [mkClockEvent 0 (call_probe_mb_tiles_builder_thread 0 0) (1 # 2) true;
     mkClockEvent 1 call_clean_status_message 3 false] 2
    [mkMBTilesBuilder "/data/app/mbtiles/Nice.mbtiles" true
       [((1 # 1, 2 # 1, 3 # 1, 4 # 1), [12; 13])] 4 10]
    [mkThread 0 false true].

(** Two downloads, the first dead and the second running. *)
Definition two_downloads : World Q :=
  mkWorld (fs Sample.stocked) (4361 # 100) (388 # 100) 8 MapSource [] [] ""
    [mkClockEvent 0 (call_probe_mb_tiles_builder_thread 0 0) (1 # 2) true;
     mkClockEvent 1 (call_probe_mb_tiles_builder_thread 1 1) (1 # 2) true] 2
    [mkMBTilesBuilder "/data/app/mbtiles/Nice.mbtiles" true
       [((1 # 1, 2 # 1, 3 # 1, 4 # 1), [12; 13])] 4 10;
     mkMBTilesBuilder "/data/app/mbtiles/Metz.mbtiles" true
       [((5 # 1, 6 # 1, 7 # 1, 8 # 1), [12])] 1 3]
    [mkThread 0 false false; mkThread 1 false true].

(** A geocoder that finds a city whose bounding box has three
    entries. *)
Definition cropped : Location Q :=
  mkLocation "Nice, France" (4370 # 100) (727 # 100) "city" ["43.64"; "43.76"; "7.18"].

Definition host_cropped : Host Q :=
  {| py_float := Sample.dec_float;
     py_int := Sample.dec_int;
     geocode := fun _ => GeocodeFound cropped;
     makedirs_permitted := fun _ => true;
     user_data_dir := "/data/app" |}.

End Scenes.

(** * Properties *)

(** ** The helpers on concrete inputs *)

Example split_center : Py.split ","%char "3.88,43.61,8" = ["3.88"; "43.61"; "8"].
Proof. reflexivity. Qed.

Example split_no_sep : Py.split ","%char "Paris" = ["Paris"].
Proof. reflexivity. Qed.

Example join_dir : Py.os_path_join "/data/app" "mbtiles" = "/data/app/mbtiles".
Proof. reflexivity. Qed.

Example ancestors_dir :
  Py.ancestors "/data/app/mbtiles" = ["/data"; "/data/app"].
Proof. reflexivity. Qed.

Example range_offline : Py.range 12 (15 + 1) = [12; 13; 14; 15].
Proof. reflexivity. Qed.

Example split_pattern :
  os_path_split "/data/app/mbtiles/*.mbtiles" = ("/data/app/mbtiles", "*.mbtiles").
Proof. reflexivity. Qed.

Example fnmatch_package : fnmatch "*.mbtiles" "Paris.mbtiles" = true.
Proof. reflexivity. Qed.

Example fnmatch_other : fnmatch "*.mbtiles" "Paris.mbtiles.tmp" = false.
Proof. reflexivity. Qed.

Example dec_float_center : Sample.dec_float "2.35" = Some (235 # 100).
Proof. reflexivity. Qed.

Example dec_float_negative : Sample.dec_float "-0.13" = Some ((-13) # 100).
Proof. reflexivity. Qed.

Example dec_float_rejects : Sample.dec_float "north" = None.
Proof. reflexivity. Qed.

Example dec_int_zoom : Sample.dec_int "12" = Some 12.
Proof. reflexivity. Qed.


(** ** Strings and paths *)

Section Strings.

Lemma string_app_nil_r (s : string) : s +:+ "" = s.
Proof. induction s as [|a s IH]; [reflexivity|]. change (String a (s +:+ "") = String a s). by rewrite IH. Qed.

Lemma string_app_assoc (s1 s2 s3 : string) : (s1 +:+ s2) +:+ s3 = s1 +:+ s2 +:+ s3.
Proof.
  induction s1 as [|a s1 IH]; [reflexivity|].
  change (String a ((s1 +:+ s2) +:+ s3) = String a (s1 +:+ s2 +:+ s3)).
  by rewrite IH.
Qed.

Lemma string_rev_app_spec (s acc : string) : String.rev_app s acc = String.rev s +:+ acc.
Proof.
  unfold String.rev. revert acc.
  induction s as [|a s IH]; intros acc; [reflexivity|].
  cbn [String.rev_app]. rewrite (IH (String a "")), IH, string_app_assoc. reflexivity.
Qed.

Lemma string_rev_app_distr (s1 s2 : string) :
  String.rev (s1 +:+ s2) = String.rev s2 +:+ String.rev s1.
Proof.
  induction s1 as [|a s1 IH].
  - change ("" +:+ s2) with s2. by rewrite string_app_nil_r.
  - change (String a s1 +:+ s2) with (String a (s1 +:+ s2)).
    unfold String.rev at 1 3. cbn [String.rev_app].
    rewrite !string_rev_app_spec, IH, string_app_assoc. reflexivity.
Qed.


End Strings.

Section Paths.
Context {float : Type} `{!Host float}.





End Paths.

(** ** Running the monad *)

Ltac unfold_monad :=
  unfold bind, ret, raise, gets, modify, lift, read_local in *.

Ltac unfold_framework :=
  unfold Animation_start, Popup_open, Clock_unschedule, Clock_schedule_once,
    Clock_schedule_interval, Clock_create, Clock_cancel, MBTilesBuilder_new,
    add_coverage, Thread_start, Thread_is_alive, mb_rendered, mb_nbtiles,
    Toolbar_show, Toolbar_hide, os_path_exists in *.

Section Viewport.
Context {float : Type} `{!Host float}.

Lemma animated_center_on_run (latitude longitude : float) (w : World float) :
  animated_center_on latitude longitude w
  = (Ok tt,
     set_animations
       (animations w ++ [(MapViewWidget, transition (zoom w) latitude longitude)]) w).
Proof. reflexivity. Qed.

(** C7. From any viewport, [animated_center_on(latitude, longitude)]
    returns normally and starts, on the map view, one animation: the
    zoom to level 5 in parallel with the pan to (latitude, longitude),
    each lasting 1, followed in sequence by the zoom to the value the
    zoom had when the method was called, lasting 1. The viewport
    fields themselves, the animations already running and the rest of
    the world are as before. *)
Theorem animated_center_on_stages (latitude longitude : float) (w : World float) :
  let '(r, w') := animated_center_on latitude longitude w in
  r = Ok tt
  ∧ animations w'
    = animations w
      ++ [(MapViewWidget,
           Sequence
             (Parallel (Anim (animated_zoom_property 5) 1)
                       (Anim (animated_latlon_property latitude longitude) 1))
             (Anim (animated_zoom_property (zoom w)) 1))]
  ∧ (lat w', lon w', zoom w') = (lat w, lon w, zoom w)
  ∧ w' = set_animations (animations w') w.
Proof.
  rewrite animated_center_on_run. repeat split.
Qed.

End Viewport.

(** ** Loading packages *)

Section Packages.
Context {float : Type} `{!Host float}.

(** A package that declares a center: the view starts the transition
    to it and takes the minimum zoom. *)
Lemma load_mbtiles_centered
    (mbtiles : string) (w : World float) (metadata : gmap string string)
    (center : string) (longitude latitude zoom_hint : float) (min_zoom : Z) :
  assoc (Py.os_path_join mbtiles_directory mbtiles) (fs w)
    = Some (MBTilesFile metadata) ->
  metadata !! "center" = Some center ->
  unpack_center center = Ok (longitude, latitude, zoom_hint) ->
  get_min_zoom metadata = Ok min_zoom ->
  load_mbtiles mbtiles w
  = (Ok tt,
     set_zoom min_zoom
       (set_animations
          (animations w ++ [(MapViewWidget, transition (zoom w) latitude longitude)])
          (with_packages w))).
Proof.
  intros Hfile Hcenter Hunpack Hmin.
  unfold load_mbtiles, MBTilesReader_metadata. unfold_monad. cbn.
  rewrite Hfile, Hcenter, Hunpack. cbn. rewrite Hmin. reflexivity.
Qed.

(** A package that declares no center: the locals [latitude] and
    [longitude] are unbound when they are read, and the method stops
    there, after the map source has been replaced and before the zoom
    is set. *)
Lemma load_mbtiles_uncentered
    (mbtiles : string) (w : World float) (metadata : gmap string string) :
  assoc (Py.os_path_join mbtiles_directory mbtiles) (fs w)
    = Some (MBTilesFile metadata) ->
  metadata !! "center" = None ->
  load_mbtiles mbtiles w = (Raise (UnboundLocalError "latitude"), with_packages w).
Proof.
  intros Hfile Hcenter.
  unfold load_mbtiles, MBTilesReader_metadata. unfold_monad. cbn.
  rewrite Hfile, Hcenter. reflexivity.
Qed.



End Packages.

(** C1, on the package [Lyon.mbtiles], whose metadata declares
    [minzoom = 3] and no [center]: [load_mbtiles] raises
    [UnboundLocalError] on the local [latitude]; the zoom, 8 before the
    call, is still 8 and not the declared minimum 3. On
    [Paris.mbtiles], which declares a center, the transition to the
    center starts and the zoom becomes the declared minimum 12. *)
Theorem load_mbtiles_without_center_raises :
  let w := Sample.stocked in
  let '(r, w') := @load_mbtiles Q (Sample.host true) "Lyon.mbtiles" w in
  Sample.lyon_metadata !! "center" = None
  ∧ @get_min_zoom Q (Sample.host true) Sample.lyon_metadata = Ok 3
  ∧ r = Raise (UnboundLocalError "latitude")
  ∧ zoom w = 8 ∧ zoom w' = 8
  ∧ animations w' = []
  ∧ (let '(r2, w2) := @load_mbtiles Q (Sample.host true) "Paris.mbtiles" w in
     r2 = Ok tt ∧ zoom w2 = 12
     ∧ animations w2 = [(MapViewWidget, transition 8 (4885 # 100) (235 # 100))]).
Proof. vm_compute. repeat split. Qed.

(** ** The file system *)

Section FileSystemFacts.
Context {float : Type}.

Lemma assoc_filter_out (p : string) (l : list (string * node)) :
  assoc p (filter (fun e => e.1 ≠ p) l) = None.
Proof.
  induction l as [|[q n] l IH]; [reflexivity|].
  rewrite filter_cons. cbn [fst].
  destruct (decide (q ≠ p)) as [Hne|Heq]; [|exact IH].
  cbn [assoc]. by rewrite decide_False.
Qed.

Lemma os_remove_file (p : string) (w : World float) :
  isfile p w = true ->
  os_remove p w = (Ok tt, set_fs (filter (fun e => e.1 ≠ p) (fs w)) w).
Proof.
  unfold isfile, os_remove. unfold_monad.
  destruct (assoc p (fs w)) as [[| |]|]; done.
Qed.

Lemma path_exists_removed (p : string) (w : World float) :
  path_exists p (set_fs (filter (fun e => e.1 ≠ p) (fs w)) w) = false.
Proof. unfold path_exists. cbn. by rewrite assoc_filter_out. Qed.

End FileSystemFacts.

(** ** The download controller *)

Section Downloads.
Context {float : Type} `{!Host float}.

(** C8. A geocoder bounding box of four strings
    [(min_lat, max_lat, min_lon, max_lon)] that [float] accepts is
    converted, without reading or writing the world and without
    raising, to exactly [(min_lon, min_lat, max_lon, max_lat)]. *)
Theorem geopy_bbox_to_bbox_reorders
    (s_min_lat s_max_lat s_min_lon s_max_lon : string)
    (min_lat max_lat min_lon max_lon : float) :
  py_float s_min_lat = Some min_lat ->
  py_float s_max_lat = Some max_lat ->
  py_float s_min_lon = Some min_lon ->
  py_float s_max_lon = Some max_lon ->
  geopy_bbox_to_bbox [s_min_lat; s_max_lat; s_min_lon; s_max_lon]
  = Ok (min_lon, min_lat, max_lon, max_lat).
Proof.
  intros H1 H2 H3 H4. unfold geopy_bbox_to_bbox. cbn.
  rewrite H1, H2, H3, H4. reflexivity.
Qed.

Lemma update_status_message_run (text : string) (lifetime : Q) (w : World float) :
  update_status_message text lifetime w = (Ok tt, with_status text lifetime w).
Proof. reflexivity. Qed.

Lemma download_for_offline_fresh
    (filepath : string) (bbox : Bbox float) (zoomlevels : list Z) (w : World float) :
  download_for_offline filepath bbox zoomlevels false w
  = (Ok tt, with_download filepath bbox zoomlevels w).
Proof.
  unfold download_for_offline. unfold_framework. unfold_monad. cbn.
  rewrite alter_app_r_alt by reflexivity.
  rewrite Nat.sub_diag. reflexivity.
Qed.

Lemma download_for_offline_delete
    (filepath : string) (bbox : Bbox float) (zoomlevels : list Z) (w : World float) :
  isfile filepath w = true ->
  download_for_offline filepath bbox zoomlevels true w
  = download_for_offline filepath bbox zoomlevels false
      (set_fs (filter (fun e => e.1 ≠ filepath) (fs w)) w).
Proof.
  intros Hfile. unfold download_for_offline at 1.
  unfold bind at 1. rewrite (os_remove_file _ _ Hfile). reflexivity.
Qed.

(** C5. [download_for_offline] with [delete=True] on a path that
    holds a file: [os.remove] succeeds and leaves no entry at the
    path; the call then does what a call without [delete] does in the
    world without the file, and that always starts: it returns
    normally with a new builder for the path ([cache=True], the
    requested coverage), a new thread running the builder with
    [force=False], and the probe of that builder and thread on the
    clock as a looping event of period 1/2. *)
Theorem download_for_offline_force_starts
    (filepath : string) (bbox : Bbox float) (zoomlevels : list Z) (w : World float) :
  isfile filepath w = true ->
  let removed := set_fs (filter (fun e => e.1 ≠ filepath) (fs w)) w in
  let '(r, w') := download_for_offline filepath bbox zoomlevels true w in
  os_remove filepath w = (Ok tt, removed)
  ∧ path_exists filepath removed = false
  ∧ (r, w') = download_for_offline filepath bbox zoomlevels false removed
  ∧ r = Ok tt
  ∧ path_exists filepath w' = false
  ∧ builders w'
    = builders w ++ [mkMBTilesBuilder filepath true [(bbox, zoomlevels)] 0%N 0%N]
  ∧ threads w' = threads w ++ [mkThread (length (builders w)) false true]
  ∧ clock w'
    = clock w
      ++ [mkClockEvent (clock_created w)
            (call_probe_mb_tiles_builder_thread
               (length (builders w)) (length (threads w)))
            (1 # 2) true].
Proof.
  intros Hfile removed.
  rewrite (download_for_offline_delete _ _ _ _ Hfile).
  fold removed. rewrite download_for_offline_fresh.
  split; [exact (os_remove_file _ _ Hfile)|].
  split; [apply path_exists_removed|].
  repeat split. apply path_exists_removed.
Qed.

End Downloads.

Section Requests.
Context {float : Type} `{!Host float}.

(** C4. [prepare_download_for_offline2] on a file name whose path in
    the (existing) package directory is occupied: the call returns
    normally after opening one confirmation popup and publishing the
    status message; the file system, the builders and the threads are
    untouched, and the only clock event that is new is the one that
    clears the status message, so no fetch and no probe is started.
    The popup's [on_yes] is the call of [download_for_offline] on that
    path with [delete=True], and answering yes runs exactly that
    call. *)
Theorem prepare_download_for_offline2_conflict
    (filename : string) (bbox : Bbox float) (zoomlevels : list Z) (w : World float) :
  path_exists mbtiles_directory w = true ->
  path_exists (Py.os_path_join mbtiles_directory filename) w = true ->
  let filepath := Py.os_path_join mbtiles_directory filename in
  let popup :=
    ConfirmPopup "File already exists" override_question
      (call_download_for_offline filepath bbox zoomlevels true) in
  let '(r, w') := prepare_download_for_offline2 filename bbox zoomlevels w in
  r = Ok tt
  ∧ popups w' = popups w ++ [popup]
  ∧ status_message w' = "File already exists: " +:+ filename
  ∧ fs w' = fs w
  ∧ builders w' = builders w
  ∧ threads w' = threads w
  ∧ (∀ ev, ev ∈ clock w' -> ev ∈ clock w ∨ callback ev = call_clean_status_message)
  ∧ (∀ w2, ConfirmPopup_on_yes popup w2
           = download_for_offline filepath bbox zoomlevels true w2).
Proof.
  intros Hdir Hfile filepath popup.
  unfold prepare_download_for_offline2, os_path_exists.
  unfold bind at 1, gets at 1. rewrite Hdir.
  unfold bind at 1, ret at 1. unfold bind at 1, gets at 1. rewrite Hfile.
  unfold bind at 1, Popup_open, modify.
  rewrite update_status_message_run.
  repeat split.
  - intros ev Hev. cbn in Hev.
    apply elem_of_app in Hev as [Hev|Hev].
    + left. by apply list_elem_of_filter in Hev as [_ ?].
    + right. apply list_elem_of_singleton in Hev as ->. reflexivity.
  - intros w2. unfold popup, ConfirmPopup_on_yes, run_callback.
    unfold bind, ret.
    by destruct (download_for_offline filepath bbox zoomlevels true w2) as [[[]|e] w3].
Qed.

(** C2, amended. When the package directory is missing and cannot be
    created, [prepare_download_for_offline2] raises the [OSError] of
    [os.makedirs] to its caller and leaves the world as it was: no
    download is started, and no popup or status message is
    published. *)
Theorem prepare_download_for_offline2_makedirs_refused
    (filename : string) (bbox : Bbox float) (zoomlevels : list Z) (w : World float) :
  path_exists mbtiles_directory w = false ->
  makedirs_permitted mbtiles_directory = false ->
  prepare_download_for_offline2 filename bbox zoomlevels w
  = (Raise (OSError mbtiles_directory), w).
Proof.
  intros Hdir Hperm.
  unfold prepare_download_for_offline2, os_makedirs, os_path_exists.
  unfold_monad. cbv beta. rewrite !Hdir, Hperm. reflexivity.
Qed.

(** The geocoder fails during a search: the failure is caught and
    shown in a popup, and [search] returns normally. *)
Lemma search_service_error (text message : string) (w : World float) :
  geocode text = GeocodeRaises message ->
  search text w
  = (Ok tt, set_popups (popups w ++ [PopupMessage "Error" message]) w).
Proof. intros Hg. unfold search. rewrite Hg. reflexivity. Qed.

(** The geocoder fails during the city resolution: nothing catches
    the failure, which leaves [prepare_download_for_offline1] as an
    exception; no popup is opened. *)
Lemma prepare_download_for_offline1_service_error
    (text message : string) (w : World float) :
  geocode text = GeocodeRaises message ->
  prepare_download_for_offline1 text w = (Raise (GeocoderServiceError message), w).
Proof. intros Hg. unfold prepare_download_for_offline1. rewrite Hg. reflexivity. Qed.

(** C6. [prepare_download_for_offline1] on any text: a place whose
    [raw['type']] is not ["city"] gets the popup "Only cities are
    allowed." and nothing else changes; no place gets the popup
    "Can't find location." and nothing else changes (no thread, no
    builder, no clock event, no file system change, no animation in
    either case). Conversely, if the call starts a thread, changes
    the file system or starts moving the view, the geocoder found a
    place and its [raw['type']] is ["city"]. *)
Theorem prepare_download_for_offline1_cities_only (text : string) (w : World float) :
  (∀ location,
      geocode text = GeocodeFound location -> raw_type location ≠ "city" ->
      prepare_download_for_offline1 text w
      = (Ok tt,
         set_popups (popups w ++ [PopupMessage "Error" "Only cities are allowed."]) w))
  ∧ (geocode text = GeocodeNone ->
     prepare_download_for_offline1 text w
     = (Ok tt,
        set_popups (popups w ++ [PopupMessage "Error" "Can't find location."]) w))
  ∧ (let w' := (prepare_download_for_offline1 text w).2 in
     threads w' ≠ threads w ∨ fs w' ≠ fs w ∨ animations w' ≠ animations w ->
     ∃ location, geocode text = GeocodeFound location ∧ raw_type location = "city").
Proof.
  unfold prepare_download_for_offline1.
  destruct (geocode text) as [message| |location].
  - repeat split; try discriminate. cbn. intros [?|[?|?]]; done.
  - repeat split; try discriminate. cbn. intros [?|[?|?]]; done.
  - split; [|split; [discriminate|]].
    + intros ? [= <-] Hne. by rewrite decide_True.
    + destruct (decide (raw_type location ≠ "city")) as [Hne|Heq].
      * cbn. intros [?|[?|?]]; done.
      * intros _. exists location. split; [reflexivity|].
        by destruct (decide (raw_type location = "city")).
Qed.

End Requests.

Section Probe.
Context {float : Type} `{!Host float}.

(** The probe on a dead thread: the progress message, then the final
    message, then [False]. *)
Lemma probe_dead_thread_run
    (mb mb_run_thread : nat) (w : World float) (b : MBTilesBuilder float) (t : Thread) :
  builders w !! mb = Some b ->
  threads w !! mb_run_thread = Some t ->
  is_alive t = false ->
  probe_mb_tiles_builder_thread mb mb_run_thread w
  = (Ok (Some false),
     with_status (downloading_tiles (nbtiles b) (nbtiles b)) 10
       (with_status (downloading_tiles (rendered b) (nbtiles b)) 10 w)).
Proof.
  intros Hb Ht Hdead.
  unfold probe_mb_tiles_builder_thread, mb_rendered, mb_nbtiles, Thread_is_alive.
  unfold bind at 1, gets at 1. rewrite Hb.
  unfold bind at 1, gets at 1. rewrite Hb.
  unfold bind at 1. rewrite update_status_message_run.
  unfold bind at 1, gets at 1.
  change (threads (with_status _ _ w)) with (threads w). rewrite Ht, Hdead.
  cbn [negb]. unfold bind at 1, gets at 1.
  change (builders (with_status _ _ w)) with (builders w). rewrite Hb.
  unfold bind at 1. rewrite update_status_message_run. reflexivity.
Qed.

(** C9. A poll that finds the thread of a download dead, whatever
    the builder's [rendered] counter is: the probe returns [False]
    and the status message it leaves is "Downloading tiles n/n" with
    [n] the builder's [nbtiles]. When the clock fires the looping
    event that carries this probe, the event is cancelled: no event
    of the clock has its identity afterwards, so the probe is not
    polled again. *)
Theorem probe_dead_thread_reports_total
    (mb mb_run_thread : nat) (w : World float) (b : MBTilesBuilder float) (t : Thread) :
  builders w !! mb = Some b ->
  threads w !! mb_run_thread = Some t ->
  is_alive t = false ->
  let final := downloading_tiles (nbtiles b) (nbtiles b) in
  let '(r, w') := probe_mb_tiles_builder_thread mb mb_run_thread w in
  r = Ok (Some false)
  ∧ status_message w' = final
  ∧ ∀ ev : ClockEvent float,
      loop ev = true ->
      callback ev = call_probe_mb_tiles_builder_thread mb mb_run_thread ->
      let '(r2, w2) := Clock_tick ev w in
      r2 = Ok tt
      ∧ status_message w2 = final
      ∧ ∀ ev', ev' ∈ clock w2 -> event_id ev' ≠ event_id ev.
Proof.
  intros Hb Ht Hdead final.
  rewrite (probe_dead_thread_run _ _ _ _ _ Hb Ht Hdead).
  split; [reflexivity|]. split; [reflexivity|].
  intros ev Hloop Hcb. unfold Clock_tick. rewrite Hloop, Hcb.
  unfold run_callback, bind.
  rewrite (probe_dead_thread_run _ _ _ _ _ Hb Ht Hdead).
  unfold Clock_cancel, modify.
  split; [reflexivity|]. split; [reflexivity|].
  intros ev' Hev'. cbn [clock set_clock] in Hev'.
  by apply list_elem_of_filter in Hev' as [? _].
Qed.

End Probe.

(** ** The statements on the concrete host *)

Section Concrete.
Import Sample.

Example mbtiles_paths_stocked :
  @mbtiles_paths Q (host true) stocked
  = ["/data/app/mbtiles/World.mbtiles"; "/data/app/mbtiles/Paris.mbtiles";
     "/data/app/mbtiles/Lyon.mbtiles"].
Proof. reflexivity. Qed.

(** Loading one package installs all three. *)
Example load_lyon_installs_all :
  map_source (@load_mbtiles Q (host true) "Lyon.mbtiles" stocked).2
  = MBTilesCompositeMapSource
      ["/data/app/mbtiles/World.mbtiles"; "/data/app/mbtiles/Paris.mbtiles";
       "/data/app/mbtiles/Lyon.mbtiles"].
Proof. reflexivity. Qed.

(** C8 on the bounding box of Paris. *)
Lemma geopy_bbox_to_bbox_reorders_witness :
  @geopy_bbox_to_bbox Q (host true) ["48.81"; "48.90"; "2.22"; "2.47"]
  = Ok (222 # 100, 4881 # 100, 247 # 100, 4890 # 100).
Proof.
  apply (@geopy_bbox_to_bbox_reorders Q (host true)); reflexivity.
Defined.

(** C5 on the package of Paris: the file goes, one thread and one
    probe every 1/2 appear. *)
Lemma download_for_offline_force_starts_witness :
  isfile paris_path stocked = true
  ∧ let '(r, w') :=
      @download_for_offline Q paris_path paris_bbox offline_levels true stocked in
    r = Ok tt
    ∧ path_exists paris_path w' = false
    ∧ threads w' = [mkThread 0 false true]
    ∧ clock w'
      = [mkClockEvent 0 (call_probe_mb_tiles_builder_thread 0 0) (1 # 2) true].
Proof.
  split; [reflexivity|].
  pose proof (@download_for_offline_force_starts Q
                paris_path paris_bbox offline_levels stocked eq_refl) as H.
  cbv zeta in H.
  destruct (download_for_offline paris_path paris_bbox offline_levels true stocked)
    as [r w'].
  destruct H as (_ & _ & _ & Hr & Hgone & _ & Ht & Hc).
  repeat split; assumption.
Defined.

(** C4 on the package of Paris, which is there already. *)
Lemma prepare_download_for_offline2_conflict_witness :
  path_exists (@mbtiles_directory Q (host true)) stocked = true
  ∧ path_exists (Py.os_path_join (@mbtiles_directory Q (host true)) "Paris.mbtiles")
      stocked = true
  ∧ let '(r, w') :=
      @prepare_download_for_offline2 Q (host true)
        "Paris.mbtiles" paris_bbox offline_levels stocked in
    r = Ok tt
    ∧ popups w'
      = [ConfirmPopup "File already exists" override_question
           (call_download_for_offline paris_path paris_bbox offline_levels true)]
    ∧ fs w' = fs stocked
    ∧ threads w' = [].
Proof.
  split; [reflexivity|]. split; [reflexivity|].
  pose proof (@prepare_download_for_offline2_conflict Q (host true)
                "Paris.mbtiles" paris_bbox offline_levels stocked eq_refl eq_refl) as H.
  cbv zeta in H.
  destruct (prepare_download_for_offline2 "Paris.mbtiles" paris_bbox offline_levels
              stocked) as [r w'].
  destruct H as (Hr & Hp & _ & Hfs & _ & Ht & _).
  repeat split; assumption.
Defined.

(** C2 as claimed fails where the user data directory is not
    writable and holds no package directory: the call does not
    return normally. *)
Lemma prepare_download_for_offline2_denied_not_surfaced :
  ¬ @denied_is_surfaced Q (host false)
      "Paris.mbtiles" paris_bbox offline_levels fresh.
Proof.
  intros H. destruct (H eq_refl eq_refl) as (w' & Hrun & _).
  vm_compute in Hrun. discriminate Hrun.
Qed.

(** C2, amended, in that same world. *)
Lemma prepare_download_for_offline2_makedirs_refused_witness :
  path_exists (@mbtiles_directory Q (host false)) fresh = false
  ∧ @makedirs_permitted Q (host false) (@mbtiles_directory Q (host false)) = false
  ∧ @prepare_download_for_offline2 Q (host false)
      "Paris.mbtiles" paris_bbox offline_levels fresh
    = (Raise (OSError "/data/app/mbtiles"), fresh).
Proof.
  split; [reflexivity|]. split; [reflexivity|].
  apply (@prepare_download_for_offline2_makedirs_refused Q (host false));
    reflexivity.
Defined.

(** C3, where the geocoder is out of service: [search] catches the
    failure and shows it in a popup, [prepare_download_for_offline1]
    lets the exception out and shows nothing. *)
Theorem prepare_download_for_offline1_service_error_escapes :
  @geocode Q (host true) "Berlin" = GeocodeRaises "Service not available"
  ∧ @search Q (host true) "Berlin" stocked
    = (Ok tt, set_popups [PopupMessage "Error" "Service not available"] stocked)
  ∧ @prepare_download_for_offline1 Q (host true) "Berlin" stocked
    = (Raise (GeocoderServiceError "Service not available"), stocked).
Proof. repeat split. Qed.

(** C6 on an address. *)
Lemma prepare_download_for_offline1_cities_only_witness :
  @geocode Q (host true) "10 Downing Street" = GeocodeFound downing_street
  ∧ raw_type downing_street ≠ "city"
  ∧ @prepare_download_for_offline1 Q (host true) "10 Downing Street" stocked
    = (Ok tt,
       set_popups [PopupMessage "Error" "Only cities are allowed."] stocked).
Proof.
  split; [reflexivity|]. split; [discriminate|].
  apply (proj1 (@prepare_download_for_offline1_cities_only Q (host true)
                  "10 Downing Street" stocked) downing_street);
    [reflexivity|discriminate].
Defined.

(** C9 on a download that died after 4 tiles of 10. *)
Lemma probe_dead_thread_reports_total_witness :
  (rendered <$> builders interrupted !! 0%nat) = Some 4%N
  ∧ (nbtiles <$> builders interrupted !! 0%nat) = Some 10%N
  ∧ (is_alive <$> threads interrupted !! 0%nat) = Some false
  ∧ let '(r, w') := @probe_mb_tiles_builder_thread Q 0 0 interrupted in
    r = Ok (Some false) ∧ status_message w' = "Downloading tiles 10/10".
Proof.
  split; [reflexivity|]. split; [reflexivity|]. split; [reflexivity|].
  pose proof (@probe_dead_thread_reports_total Q 0%nat 0%nat interrupted
                _ _ eq_refl eq_refl eq_refl) as H.
  cbv zeta in H.
  destruct (probe_mb_tiles_builder_thread 0 0 interrupted) as [r w'].
  destruct H as (Hr & Hs & _). split; [exact Hr|exact Hs].
Defined.

End Concrete.

(** * Further properties of the program *)

(** ** The status message and its clean-up *)

Section StatusMessage.
Context {float : Type} `{!Host float}.

Lemma filter_clean_of_others (l : list (ClockEvent float)) :
  filter (fun ev => is_clean_status_message (callback ev) = true)
    (filter (fun ev => is_clean_status_message (callback ev) = false) l) = [].
Proof.
  induction l as [|ev l IH]; [reflexivity|].
  rewrite (filter_cons (fun ev => is_clean_status_message (callback ev) = false)).
  destruct (decide (is_clean_status_message (callback ev) = false)) as [Hno|_]; [|exact IH].
  rewrite filter_cons_False; [exact IH|]. rewrite Hno. discriminate.
Qed.

Lemma filter_others_idemp (l : list (ClockEvent float)) :
  filter (fun ev => is_clean_status_message (callback ev) = false)
    (filter (fun ev => is_clean_status_message (callback ev) = false) l)
  = filter (fun ev => is_clean_status_message (callback ev) = false) l.
Proof.
  rewrite list_filter_filter. apply list_filter_iff. intros ev. tauto.
Qed.

(** Whatever was pending, once [update_status_message] returns the
    status message is the text given, exactly one event that clears it
    is pending, it is a one-shot event with the lifetime given, and the
    other events of the clock are as before, in the same order. *)
Theorem update_status_message_single_cleanup
    (text : string) (lifetime : Q) (w : World float) :
  let '(r, w') := update_status_message text lifetime w in
  r = Ok tt
  ∧ status_message w' = text
  ∧ pending_cleanups w'
    = [mkClockEvent (clock_created w) call_clean_status_message lifetime false]
  ∧ other_events w' = other_events w.
Proof.
  rewrite update_status_message_run. unfold pending_cleanups, other_events.
  cbn [clock with_status set_clock set_clock_created set_status_message status_message].
  rewrite !filter_app, filter_clean_of_others, filter_others_idemp.
  repeat split. by rewrite app_nil_r.
Qed.

Lemma with_status_ids_fresh (text : string) (lifetime : Q) (w : World float) :
  clock_ids_fresh w -> clock_ids_fresh (with_status text lifetime w).
Proof.
  intros Hfresh ev Hev. cbn in Hev |- *.
  apply elem_of_app in Hev as [Hev|Hev].
  - apply list_elem_of_filter in Hev as [_ Hev]. specialize (Hfresh ev Hev). lia.
  - apply list_elem_of_singleton in Hev as ->. cbn. lia.
Qed.

Lemma filter_other_ids (l : list (ClockEvent float)) (id : nat) :
  (∀ ev, ev ∈ l -> event_id ev ≠ id) ->
  filter (fun ev => event_id ev ≠ id) l = l.
Proof.
  induction l as [|ev l IH]; intros Hall; [reflexivity|].
  rewrite filter_cons_True by (apply Hall; left).
  f_equal. apply IH. intros ev' Hev'. apply Hall. by right.
Qed.

(** The life of a status message: in a world whose event identities
    are fresh, the event that [update_status_message] schedules is on
    the clock, and when the clock fires it the message is emptied, no
    clean-up is pending any more and the other events of the clock are
    as they were before the message was published. *)
Theorem status_message_expires (text : string) (lifetime : Q) (w : World float) :
  clock_ids_fresh w ->
  let cleanup := mkClockEvent (clock_created w) call_clean_status_message lifetime false in
  let w1 := (update_status_message text lifetime w).2 in
  let '(r, w2) := Clock_tick cleanup w1 in
  cleanup ∈ clock w1
  ∧ r = Ok tt
  ∧ status_message w2 = ""
  ∧ pending_cleanups w2 = []
  ∧ other_events w2 = other_events w
  ∧ clock_ids_fresh w2.
Proof.
  intros Hfresh cleanup w1. unfold w1. rewrite update_status_message_run.
  cbn [snd]. clear w1. set (w1 := with_status text lifetime w).
  assert (Hrun : ∃ w2, Clock_tick cleanup w1 = (Ok tt, w2)
                       ∧ status_message w2 = ""
                       ∧ clock w2 = filter (fun ev => event_id ev ≠ clock_created w) (clock w1)
                       ∧ clock_created w2 = S (clock_created w))
    by (eexists; repeat split).
  destruct Hrun as (w2 & -> & Hmsg & Hclock & Hcreated).
  assert (Hothers : clock w2 = other_events w).
  { rewrite Hclock. unfold w1, other_events. cbn [clock with_status set_clock set_clock_created].
    rewrite filter_app, filter_cons_False, filter_nil, app_nil_r by (cbn; tauto).
    apply filter_other_ids. intros ev Hev.
    apply list_elem_of_filter in Hev as [_ Hev]. specialize (Hfresh ev Hev). lia. }
  split; [unfold w1; cbn; apply elem_of_app; right; by left|].
  split; [reflexivity|]. split; [exact Hmsg|].
  unfold pending_cleanups. unfold other_events at 1. rewrite Hothers. unfold other_events.
  split; [apply filter_clean_of_others|].
  split; [apply filter_others_idemp|].
  intros ev Hev. rewrite Hothers in Hev. rewrite Hcreated.
  apply list_elem_of_filter in Hev as [_ Hev]. specialize (Hfresh ev Hev). lia.
Qed.

End StatusMessage.

(** ** The progress probe *)

Section ProbeMore.
Context {float : Type} `{!Host float}.

(** Whatever the builder and the thread are, and also when the probe
    is given a builder or thread that does not exist, the probe does
    not raise and only publishes status messages: the builders, the
    threads, the file system, the popups, the map source and the zoom
    are as before, and so are the events of the clock other than the
    clean-up of the status message. *)
Theorem probe_only_reports (mb mb_run_thread : nat) (w : World float) :
  let '(r, w') := probe_mb_tiles_builder_thread mb mb_run_thread w in
  (r = Ok None ∨ r = Ok (Some false))
  ∧ builders w' = builders w
  ∧ threads w' = threads w
  ∧ fs w' = fs w
  ∧ popups w' = popups w
  ∧ map_source w' = map_source w
  ∧ zoom w' = zoom w
  ∧ other_events w' = other_events w.
Proof.
  unfold probe_mb_tiles_builder_thread, mb_rendered, mb_nbtiles, Thread_is_alive.
  unfold bind at 1, gets at 1. unfold bind at 1, gets at 1.
  unfold bind at 1. rewrite update_status_message_run.
  unfold bind at 1, gets at 1.
  change (threads (with_status _ _ w)) with (threads w).
  destruct (match threads w !! mb_run_thread with
            | Some th => is_alive th
            | None => false
            end); cbn [negb].
  - unfold ret. split; [by left|].
    repeat split. unfold other_events. cbn.
    by rewrite filter_app, filter_others_idemp, filter_cons_False, filter_nil, app_nil_r.
  - unfold bind at 1, gets at 1. unfold bind at 1.
    rewrite update_status_message_run. unfold ret. split; [by right|].
    repeat split. unfold other_events. cbn.
    rewrite !filter_app, !filter_others_idemp.
    rewrite !(filter_cons_False _ (mkClockEvent _ call_clean_status_message _ _))
      by (cbn; discriminate).
    by rewrite !filter_nil, !app_nil_r.
Qed.

(** The probe while the thread is alive. *)
Lemma probe_live_thread_run
    (mb mb_run_thread : nat) (w : World float) (b : MBTilesBuilder float) (t : Thread) :
  builders w !! mb = Some b ->
  threads w !! mb_run_thread = Some t ->
  is_alive t = true ->
  probe_mb_tiles_builder_thread mb mb_run_thread w
  = (Ok None, with_status (downloading_tiles (rendered b) (nbtiles b)) 10 w).
Proof.
  intros Hb Ht Hlive.
  unfold probe_mb_tiles_builder_thread, mb_rendered, mb_nbtiles, Thread_is_alive.
  unfold bind at 1, gets at 1. rewrite Hb.
  unfold bind at 1, gets at 1. rewrite Hb.
  unfold bind at 1. rewrite update_status_message_run.
  unfold bind at 1, gets at 1.
  change (threads (with_status _ _ w)) with (threads w). rewrite Ht, Hlive.
  reflexivity.
Qed.

(** The clock firing a looping probe while the thread is alive. *)
Lemma clock_tick_live_probe
    (mb mb_run_thread : nat) (w : World float) (b : MBTilesBuilder float) (t : Thread)
    (ev : ClockEvent float) :
  builders w !! mb = Some b ->
  threads w !! mb_run_thread = Some t ->
  is_alive t = true ->
  loop ev = true ->
  callback ev = call_probe_mb_tiles_builder_thread mb mb_run_thread ->
  Clock_tick ev w
  = (Ok tt, with_status (downloading_tiles (rendered b) (nbtiles b)) 10 w).
Proof.
  intros Hb Ht Hlive Hloop Hcb.
  unfold Clock_tick. rewrite Hloop, Hcb. unfold run_callback, bind.
  by rewrite (probe_live_thread_run _ _ _ _ _ Hb Ht Hlive).
Qed.

Lemma with_status_keeps_others (text : string) (lifetime : Q) (w : World float)
    (ev : ClockEvent float) :
  ev ∈ clock w ->
  is_clean_status_message (callback ev) = false ->
  ev ∈ clock (with_status text lifetime w).
Proof.
  intros Hev Hno. cbn. apply elem_of_app. left.
  apply list_elem_of_filter. by split.
Qed.

(** A poll that finds the thread alive: the probe falls off its end
    (it does not return [False]), the message is "Downloading tiles
    r/n" with the builder's two counters, and when the clock fires the
    looping event that carries the probe the event stays on the clock,
    so the probe is polled again. *)
Theorem probe_live_thread_keeps_polling
    (mb mb_run_thread : nat) (w : World float) (b : MBTilesBuilder float) (t : Thread)
    (ev : ClockEvent float) :
  builders w !! mb = Some b ->
  threads w !! mb_run_thread = Some t ->
  is_alive t = true ->
  ev ∈ clock w ->
  loop ev = true ->
  callback ev = call_probe_mb_tiles_builder_thread mb mb_run_thread ->
  probe_mb_tiles_builder_thread mb mb_run_thread w
  = (Ok None, with_status (downloading_tiles (rendered b) (nbtiles b)) 10 w)
  ∧ let '(r, w') := Clock_tick ev w in
    r = Ok tt
    ∧ status_message w' = downloading_tiles (rendered b) (nbtiles b)
    ∧ ev ∈ clock w'.
Proof.
  intros Hb Ht Hlive Hev Hloop Hcb.
  split; [exact (probe_live_thread_run _ _ _ _ _ Hb Ht Hlive)|].
  rewrite (clock_tick_live_probe _ _ _ _ _ _ Hb Ht Hlive Hloop Hcb).
  repeat split. apply with_status_keeps_others; [exact Hev|by rewrite Hcb].
Qed.

(** When the probe of a dead download is fired and cancelled, every
    other event of the clock that is not a clean-up of the status
    message stays on the clock: the probes of the other downloads go
    on. *)
Theorem probe_cancel_spares_others
    (mb mb_run_thread : nat) (w : World float) (b : MBTilesBuilder float) (t : Thread)
    (ev other : ClockEvent float) :
  builders w !! mb = Some b ->
  threads w !! mb_run_thread = Some t ->
  is_alive t = false ->
  loop ev = true ->
  callback ev = call_probe_mb_tiles_builder_thread mb mb_run_thread ->
  other ∈ clock w ->
  event_id other ≠ event_id ev ->
  is_clean_status_message (callback other) = false ->
  other ∈ clock (Clock_tick ev w).2.
Proof.
  intros Hb Ht Hdead Hloop Hcb Hother Hid Hnoclean.
  unfold Clock_tick. rewrite Hloop, Hcb. unfold run_callback, bind.
  rewrite (probe_dead_thread_run _ _ _ _ _ Hb Ht Hdead).
  unfold Clock_cancel, modify. cbn.
  apply list_elem_of_filter. split; [exact Hid|].
  apply elem_of_app. left. apply list_elem_of_filter. split; [exact Hnoclean|].
  apply elem_of_app. left. apply list_elem_of_filter. by split.
Qed.

End ProbeMore.

(** ** Starting downloads *)

Section DownloadsMore.
Context {float : Type} `{!Host float}.

(** [download_for_offline] with [delete=True] on a path that holds no
    file (nothing, or a directory): [os.remove] raises, the [OSError]
    leaves the method, and nothing is created or scheduled. *)
Theorem download_for_offline_delete_missing
    (filepath : string) (bbox : Bbox float) (zoomlevels : list Z) (w : World float) :
  isfile filepath w = false ->
  download_for_offline filepath bbox zoomlevels true w = (Raise (OSError filepath), w).
Proof.
  unfold isfile, download_for_offline, os_remove. unfold_monad.
  destruct (assoc filepath (fs w)) as [[| |]|]; done.
Qed.


End DownloadsMore.

(** ** Requests for a download *)

Section RequestsMore.
Context {float : Type} `{!Host float}.

Lemma assoc_app (p : string) (l m : list (string * node)) :
  assoc p (l ++ m) = match assoc p l with Some n => Some n | None => assoc p m end.
Proof.
  induction l as [|[q n] l IH]; [reflexivity|].
  cbn [app assoc]. by destruct (decide (q = p)).
Qed.

Lemma assoc_new_dirs (p : string) (dirs : list string) :
  assoc p (map (fun a => (a, Dir)) dirs ++ [(p, Dir)]) = Some Dir.
Proof.
  induction dirs as [|d dirs IH]; cbn.
  - by rewrite decide_True.
  - by destruct (decide (d = p)).
Qed.

(** The entries [os.makedirs(p)] adds. *)
Lemma os_makedirs_run (p : string) (w : World float) :
  path_exists p w = false ->
  makedirs_permitted p = true ->
  ∃ more,
    os_makedirs p w = (Ok tt, set_fs (fs w ++ more) w)
    ∧ Forall (fun e => e.2 = Dir) more
    ∧ path_exists p (set_fs (fs w ++ more) w) = true.
Proof.
  intros Hmissing Hperm.
  exists (map (fun a => (a, Dir))
            (filter (fun a => path_exists a w = false) (Py.ancestors p)) ++ [(p, Dir)]).
  split; [|split].
  - unfold os_makedirs, os_path_exists. unfold_monad. cbv beta.
    by rewrite Hmissing, Hperm.
  - apply Forall_app. split; [|by constructor].
    apply Forall_forall. intros e He. apply list_elem_of_fmap in He as (a & -> & _).
    reflexivity.
  - unfold path_exists in *. cbn [fs set_fs]. rewrite assoc_app.
    destruct (assoc p (fs w)); [discriminate|]. by rewrite assoc_new_dirs.
Qed.

(** The second half of [prepare_download_for_offline2], once the
    package directory exists. *)
Lemma prepare_download_for_offline2_run
    (filename : string) (bbox : Bbox float) (zoomlevels : list Z) (w : World float) :
  path_exists mbtiles_directory w = true ->
  let filepath := Py.os_path_join mbtiles_directory filename in
  prepare_download_for_offline2 filename bbox zoomlevels w
  = if path_exists filepath w
    then (Ok tt,
          with_status ("File already exists: " +:+ filename) 10
            (set_popups (popups w ++ [override_popup filepath bbox zoomlevels]) w))
    else (Ok tt, with_download filepath bbox zoomlevels w).
Proof.
  intros Hdir filepath.
  unfold prepare_download_for_offline2, os_path_exists.
  unfold bind at 1, gets at 1. rewrite Hdir.
  unfold bind at 1, ret at 1. unfold bind at 1, gets at 1. fold filepath.
  destruct (path_exists filepath w).
  - unfold bind at 1, Popup_open, modify. by rewrite update_status_message_run.
  - apply download_for_offline_fresh.
Qed.

Lemma prepare_download_for_offline2_makedirs
    (filename : string) (bbox : Bbox float) (zoomlevels : list Z) (w : World float)
    (more : list (string * node)) :
  path_exists mbtiles_directory w = false ->
  os_makedirs mbtiles_directory w = (Ok tt, set_fs (fs w ++ more) w) ->
  path_exists mbtiles_directory (set_fs (fs w ++ more) w) = true ->
  prepare_download_for_offline2 filename bbox zoomlevels w
  = prepare_download_for_offline2 filename bbox zoomlevels (set_fs (fs w ++ more) w).
Proof.
  intros Hdir Hmk Hthere.
  unfold prepare_download_for_offline2 at 1 2, os_path_exists.
  unfold bind at 1, gets at 1. rewrite Hdir.
  unfold bind at 1. rewrite Hmk.
  symmetry. unfold bind at 1, gets at 1. rewrite Hthere.
  unfold bind at 1, ret at 1. reflexivity.
Qed.

End RequestsMore.

Section RequestOutcomes.
Context {float : Type} `{!Host float}.

(** The three ways [prepare_download_for_offline2] can end, in any
    world. Either the package directory is missing and cannot be
    created: the [OSError] is raised and the world is untouched. Or the
    call returns normally; then the package directory exists, the file
    system has at most gained directories at its end, and either the
    destination is occupied and the call has asked for confirmation
    without starting a thread, or it is free and the call has started
    one thread without opening a popup. *)
Theorem prepare_download_for_offline2_outcomes
    (filename : string) (bbox : Bbox float) (zoomlevels : list Z) (w : World float) :
  let filepath := Py.os_path_join mbtiles_directory filename in
  let '(r, w') := prepare_download_for_offline2 filename bbox zoomlevels w in
  (r = Raise (OSError mbtiles_directory) ∧ w' = w
   ∧ path_exists mbtiles_directory w = false
   ∧ makedirs_permitted mbtiles_directory = false)
  ∨ (r = Ok tt
     ∧ path_exists mbtiles_directory w' = true
     ∧ (∃ more, fs w' = fs w ++ more ∧ Forall (fun e => e.2 = Dir) more)
     ∧ ((path_exists filepath w' = true
         ∧ popups w' = popups w ++ [override_popup filepath bbox zoomlevels]
         ∧ threads w' = threads w)
        ∨ (path_exists filepath w' = false
           ∧ popups w' = popups w
           ∧ threads w' = threads w ++ [mkThread (length (builders w)) false true]))).
Proof.
  intros filepath.
  assert (Hthere : ∀ w0 : World float,
    path_exists mbtiles_directory w0 = true ->
    let '(r, w') := prepare_download_for_offline2 filename bbox zoomlevels w0 in
    r = Ok tt
    ∧ path_exists mbtiles_directory w' = true
    ∧ fs w' = fs w0
    ∧ ((path_exists filepath w' = true
        ∧ popups w' = popups w0 ++ [override_popup filepath bbox zoomlevels]
        ∧ threads w' = threads w0)
       ∨ (path_exists filepath w' = false
          ∧ popups w' = popups w0
          ∧ threads w' = threads w0 ++ [mkThread (length (builders w0)) false true]))).
  { intros w0 Hdir. rewrite (prepare_download_for_offline2_run _ _ _ _ Hdir).
    fold filepath. destruct (path_exists filepath w0) eqn:Hfile.
    - split; [reflexivity|]. split; [exact Hdir|]. split; [reflexivity|].
      left. split; [exact Hfile|]. by split.
    - split; [reflexivity|]. split; [exact Hdir|]. split; [reflexivity|].
      right. split; [exact Hfile|]. by split. }
  destruct (path_exists mbtiles_directory w) eqn:Hdir.
  - specialize (Hthere w Hdir).
    destruct (prepare_download_for_offline2 filename bbox zoomlevels w) as [r w'].
    destruct Hthere as (Hr & Hd & Hfs & Hcases). right.
    split; [exact Hr|]. split; [exact Hd|].
    split; [exists []; by rewrite app_nil_r|]. exact Hcases.
  - destruct (makedirs_permitted mbtiles_directory) eqn:Hperm.
    + destruct (os_makedirs_run _ _ Hdir Hperm) as (more & Hmk & Hdirs & Hnow).
      rewrite (prepare_download_for_offline2_makedirs _ _ _ _ _ Hdir Hmk Hnow).
      specialize (Hthere _ Hnow).
      destruct (prepare_download_for_offline2 filename bbox zoomlevels
                  (set_fs (fs w ++ more) w)) as [r w'].
      destruct Hthere as (Hr & Hd & Hfs & Hcases). right.
      split; [exact Hr|]. split; [exact Hd|].
      split; [by exists more|]. exact Hcases.
    + unfold prepare_download_for_offline2, os_makedirs, os_path_exists.
      unfold_monad. cbv beta. rewrite !Hdir, Hperm. left. by repeat split.
Qed.

(** Overriding a package: when the destination holds a file,
    [prepare_download_for_offline2] asks, and answering yes to the
    popup it opened removes the file and starts the download. *)
Theorem override_confirmed_replaces_file
    (filename : string) (bbox : Bbox float) (zoomlevels : list Z) (w : World float) :
  path_exists mbtiles_directory w = true ->
  isfile (Py.os_path_join mbtiles_directory filename) w = true ->
  let filepath := Py.os_path_join mbtiles_directory filename in
  let w1 := (prepare_download_for_offline2 filename bbox zoomlevels w).2 in
  last (popups w1) = Some (override_popup filepath bbox zoomlevels)
  ∧ let '(r, w2) := ConfirmPopup_on_yes (override_popup filepath bbox zoomlevels) w1 in
    r = Ok tt
    ∧ path_exists filepath w2 = false
    ∧ builders w2
      = builders w ++ [mkMBTilesBuilder filepath true [(bbox, zoomlevels)] 0%N 0%N]
    ∧ threads w2 = threads w ++ [mkThread (length (builders w)) false true].
Proof.
  intros Hdir Hfile filepath w1. unfold w1.
  rewrite (prepare_download_for_offline2_run _ _ _ _ Hdir). fold filepath.
  assert (Hexists : path_exists filepath w = true).
  { unfold isfile in Hfile. unfold path_exists, filepath.
    by destruct (assoc _ (fs w)) as [[| |]|]. }
  rewrite Hexists. cbn [snd].
  set (w1' := with_status _ _ _).
  split; [cbn; apply last_snoc|].
  assert (Hfile1 : isfile filepath w1' = true) by exact Hfile.
  unfold override_popup, ConfirmPopup_on_yes, run_callback.
  unfold bind at 1. unfold bind at 1.
  rewrite (download_for_offline_delete _ _ _ _ Hfile1), download_for_offline_fresh.
  unfold ret. repeat split. apply (path_exists_removed filepath w1').
Qed.

(** The same answer when the destination is a directory (one named
    like a package is listed among the packages): [os.remove] raises,
    the [OSError] leaves the handler of the popup and nothing is
    started. *)
Theorem override_confirmed_on_directory
    (filename : string) (bbox : Bbox float) (zoomlevels : list Z) (w : World float) :
  path_exists mbtiles_directory w = true ->
  assoc (Py.os_path_join mbtiles_directory filename) (fs w) = Some Dir ->
  let filepath := Py.os_path_join mbtiles_directory filename in
  let w1 := (prepare_download_for_offline2 filename bbox zoomlevels w).2 in
  last (popups w1) = Some (override_popup filepath bbox zoomlevels)
  ∧ ConfirmPopup_on_yes (override_popup filepath bbox zoomlevels) w1
    = (Raise (OSError filepath), w1).
Proof.
  intros Hdir Hfolder filepath w1. unfold w1.
  rewrite (prepare_download_for_offline2_run _ _ _ _ Hdir). fold filepath.
  assert (Hexists : path_exists filepath w = true)
    by (unfold path_exists; fold filepath in Hfolder; by rewrite Hfolder).
  rewrite Hexists. cbn [snd].
  set (w1' := with_status _ _ _).
  split; [cbn; apply last_snoc|].
  unfold override_popup, ConfirmPopup_on_yes, run_callback, download_for_offline, os_remove.
  unfold_monad. cbv beta.
  change (fs w1') with (fs w). fold filepath in Hfolder. by rewrite Hfolder.
Qed.

(** Two requests in a row for the same free destination, with nothing
    written in between: the second one is not refused; it starts a
    second builder and a second thread on the same path. *)
Theorem prepare_download_for_offline2_twice
    (filename : string) (bbox : Bbox float) (zoomlevels : list Z) (w : World float) :
  path_exists mbtiles_directory w = true ->
  path_exists (Py.os_path_join mbtiles_directory filename) w = false ->
  let dest := Py.os_path_join mbtiles_directory filename in
  let w1 := (prepare_download_for_offline2 filename bbox zoomlevels w).2 in
  let '(r, w2) := prepare_download_for_offline2 filename bbox zoomlevels w1 in
  r = Ok tt
  ∧ popups w2 = popups w
  ∧ map filepath (builders w2) = map filepath (builders w) ++ [dest; dest]
  ∧ threads w2
    = threads w ++ [mkThread (length (builders w)) false true;
                    mkThread (S (length (builders w))) false true].
Proof.
  intros Hdir Hfree. cbv zeta.
  rewrite (prepare_download_for_offline2_run _ _ _ _ Hdir). cbv zeta.
  rewrite Hfree. cbn [snd].
  rewrite (prepare_download_for_offline2_run _ _ _ (with_download _ _ _ w) Hdir).
  cbv zeta.
  change (path_exists ?p (with_download _ _ _ w)) with (path_exists p w).
  rewrite Hfree.
  split; [reflexivity|]. split; [reflexivity|]. cbn.
  rewrite !map_app, <- !app_assoc, length_app. cbn.
  split; [reflexivity|]. by rewrite Nat.add_1_r.
Qed.

End RequestOutcomes.

(** ** Bounding boxes and the city resolution *)

Section Splitting.

Lemma string_rev_cons (a : ascii) (s : string) :
  String.rev (String a s) = String.rev s +:+ String a "".
Proof. change (String a s) with (String a "" +:+ s). by rewrite string_rev_app_distr. Qed.

(** Splitting reads a component without separator up to the separator
    that follows it. *)
Lemma split_go_component (sep : ascii) (cur c rest : string) :
  Py.contains sep c = false ->
  Py.split_go sep cur (c +:+ String sep rest)
  = (String.rev cur +:+ c) :: Py.split_go sep "" rest.
Proof.
  revert cur. induction c as [|a c IH]; intros cur Hc.
  - change ("" +:+ String sep rest) with (String sep rest). cbn [Py.split_go].
    rewrite decide_True by reflexivity. by rewrite string_app_nil_r.
  - cbn [Py.contains] in Hc. destruct (decide (a = sep)) as [|Hne]; [discriminate|].
    change (String a c +:+ String sep rest) with (String a (c +:+ String sep rest)).
    cbn [Py.split_go]. rewrite decide_False by exact Hne.
    rewrite (IH _ Hc), string_rev_cons, string_app_assoc. reflexivity.
Qed.

Lemma split_go_last (sep : ascii) (cur c : string) :
  Py.contains sep c = false ->
  Py.split_go sep cur c = [String.rev cur +:+ c].
Proof.
  revert cur. induction c as [|a c IH]; intros cur Hc.
  - cbn. by rewrite string_app_nil_r.
  - cbn [Py.contains] in Hc. destruct (decide (a = sep)) as [|Hne]; [discriminate|].
    cbn [Py.split_go]. rewrite decide_False by exact Hne.
    rewrite (IH _ Hc), string_rev_cons, string_app_assoc. reflexivity.
Qed.

Lemma split_component (sep : ascii) (c rest : string) :
  Py.contains sep c = false ->
  Py.split sep (c +:+ String sep rest) = c :: Py.split sep rest.
Proof. intros Hc. unfold Py.split. by rewrite split_go_component. Qed.

Lemma split_last (sep : ascii) (c : string) :
  Py.contains sep c = false -> Py.split sep c = [c].
Proof. intros Hc. unfold Py.split. by rewrite split_go_last. Qed.

End Splitting.

Section Cities.
Context {float : Type} `{!Host float}.

(** [geopy_bbox_to_bbox] returns on a list of exactly four strings
    that [float] accepts, and on nothing else: on any other list (a
    different length, or an entry that is no float) it raises
    [ValueError], and it raises no other exception. *)
Theorem geopy_bbox_to_bbox_domain (geopy_bbox : list string) :
  (geopy_bbox_to_bbox geopy_bbox = Raise ValueError
   ↔ length geopy_bbox ≠ 4%nat ∨ ∃ s, s ∈ geopy_bbox ∧ py_float s = None)
  ∧ (∀ e, geopy_bbox_to_bbox geopy_bbox = Raise e -> e = ValueError)
  ∧ (∀ bbox, geopy_bbox_to_bbox geopy_bbox = Ok bbox ->
       ∃ a b c d, geopy_bbox = [a; b; c; d]
                  ∧ (py_float c, py_float a, py_float d, py_float b)
                    = (Some bbox.1.1.1, Some bbox.1.1.2, Some bbox.1.2, Some bbox.2)).
Proof.
  unfold geopy_bbox_to_bbox.
  destruct (mapM py_float geopy_bbox) as [k|] eqn:E.
  - pose proof (length_mapM _ _ _ E) as Hlen.
    apply mapM_Some_1 in E.
    assert (Hall : ∀ s, s ∈ geopy_bbox -> py_float s ≠ None).
    { clear Hlen. induction E as [|x y l k Hxy _ IH]; intros s Hs.
      - by apply elem_of_nil in Hs.
      - apply elem_of_cons in Hs as [->|Hs]; [congruence|by apply IH]. }
    destruct k as [|x1 [|x2 [|x3 [|x4 [|x5 k]]]]]; cbn in Hlen.
    1-4,6: split; [split; [intros _; left; lia|reflexivity]|];
           split; [by intros e [= <-]|discriminate].
    split; [split; [discriminate|intros [?|(s & Hs & Hnone)]; [lia|by destruct (Hall s Hs)]]|].
    split; [discriminate|].
    intros bbox [= <-].
    apply Forall2_cons_inv_r in E as (a & l1 & Ha & E & ->).
    apply Forall2_cons_inv_r in E as (b & l2 & Hb & E & ->).
    apply Forall2_cons_inv_r in E as (c & l3 & Hc & E & ->).
    apply Forall2_cons_inv_r in E as (d & l4 & Hd & E & ->).
    apply Forall2_nil_inv_r in E as ->.
    exists a, b, c, d. cbn. by rewrite Ha, Hb, Hc, Hd.
  - apply mapM_None_1, Exists_exists in E.
    split; [split; [intros _; by right|reflexivity]|].
    split; [by intros e [= <-]|discriminate].
Qed.

End Cities.

Section CityDownloads.
Context {float : Type} `{!Host float}.

(** The city branch of [prepare_download_for_offline1]. *)
Lemma prepare_download_for_offline1_city_run (text : string) (w : World float)
    (location : Location float) :
  geocode text = GeocodeFound location ->
  raw_type location = "city" ->
  prepare_download_for_offline1 text w
  = match geopy_bbox_to_bbox (raw_boundingbox location) with
    | Ok bbox =>
        prepare_download_for_offline2
          (hd "" (Py.split ","%char (address location)) +:+ ".mbtiles") bbox
          (Py.range OFFLINE_MIN_ZOOM (OFFLINE_MAX_ZOOM + 1))
          (set_animations
             (animations w
              ++ [(MapViewWidget,
                   transition (zoom w) (latitude location) (longitude location))]) w)
    | Raise e =>
        (Raise e,
         set_animations
           (animations w
            ++ [(MapViewWidget,
                 transition (zoom w) (latitude location) (longitude location))]) w)
    end.
Proof.
  intros Hg Hcity. unfold prepare_download_for_offline1. rewrite Hg.
  rewrite decide_False by (intros Hne; by apply Hne).
  unfold bind at 1. rewrite animated_center_on_run.
  unfold bind at 1, lift at 1.
  by destruct (geopy_bbox_to_bbox (raw_boundingbox location)).
Qed.

(** A city is downloaded under the name that is its address up to the
    first comma (the whole address when it has none) followed by
    [.mbtiles], for the zoom levels 12 to 15 and the reordered
    bounding box of the geocoder, and only after the view has started
    moving to it: [prepare_download_for_offline1] ends as
    [prepare_download_for_offline2] does on that request in the world
    with the transition started. *)
Theorem prepare_download_for_offline1_city_request
    (text : string) (w : World float) (location : Location float)
    (city : string) (bbox : Bbox float) :
  geocode text = GeocodeFound location ->
  raw_type location = "city" ->
  Py.contains ","%char city = false ->
  (address location = city ∨ ∃ rest, address location = city +:+ "," +:+ rest) ->
  geopy_bbox_to_bbox (raw_boundingbox location) = Ok bbox ->
  prepare_download_for_offline1 text w
  = prepare_download_for_offline2 (city +:+ ".mbtiles") bbox [12; 13; 14; 15]
      (set_animations
         (animations w
          ++ [(MapViewWidget,
               transition (zoom w) (latitude location) (longitude location))]) w).
Proof.
  intros Hg Hcity Hcomma Haddr Hbbox.
  rewrite (prepare_download_for_offline1_city_run _ _ _ Hg Hcity), Hbbox.
  assert (Hname : hd "" (Py.split ","%char (address location)) = city).
  { destruct Haddr as [->|[rest ->]].
    - by rewrite split_last.
    - change ("," +:+ rest) with (String ","%char rest). by rewrite split_component. }
  by rewrite Hname.
Qed.

(** A city whose bounding box cannot be converted: the exception of
    the conversion leaves [prepare_download_for_offline1] after the
    view has started moving to the city; no popup is opened and no
    download is started. *)
Theorem prepare_download_for_offline1_bad_bbox
    (text : string) (w : World float) (location : Location float) (e : exn) :
  geocode text = GeocodeFound location ->
  raw_type location = "city" ->
  geopy_bbox_to_bbox (raw_boundingbox location) = Raise e ->
  let '(r, w') := prepare_download_for_offline1 text w in
  r = Raise e
  ∧ animations w'
    = animations w
      ++ [(MapViewWidget, transition (zoom w) (latitude location) (longitude location))]
  ∧ popups w' = popups w
  ∧ threads w' = threads w
  ∧ builders w' = builders w
  ∧ fs w' = fs w.
Proof.
  intros Hg Hcity Hbbox.
  rewrite (prepare_download_for_offline1_city_run _ _ _ Hg Hcity), Hbbox.
  by repeat split.
Qed.


End CityDownloads.

(** ** Loading packages: the other paths *)

Section PackagesMore.
Context {float : Type} `{!Host float}.



Lemma unpack_center_rejects (center : string) :
  length (Py.split ","%char center) ≠ 3%nat
  ∨ (∃ part, part ∈ Py.split ","%char center ∧ py_float part = None) ->
  unpack_center center = Raise ValueError.
Proof.
  intros Hbad. unfold unpack_center.
  destruct (mapM py_float (Py.split ","%char center)) as [k|] eqn:E; [|reflexivity].
  pose proof (length_mapM _ _ _ E) as Hlen. apply mapM_Some_1 in E.
  destruct Hbad as [Hshort|(part & Hpart & Hnone)].
  - by destruct k as [|? [|? [|? [|? ?]]]]; cbn in Hlen; try reflexivity; lia.
  - exfalso. revert Hpart Hnone. clear Hlen.
    induction E as [|x y l k Hxy _ IH]; intros Hpart Hnone.
    + by apply elem_of_nil in Hpart.
    + apply elem_of_cons in Hpart as [->|Hpart]; [congruence|by apply IH].
Qed.

(** A package whose [center] is not three floats separated by commas:
    [load_mbtiles] raises [ValueError] with the map source replaced,
    no transition started and the zoom as before. *)
Theorem load_mbtiles_malformed_center
    (mbtiles : string) (w : World float) (metadata : gmap string string)
    (center : string) :
  assoc (Py.os_path_join mbtiles_directory mbtiles) (fs w)
    = Some (MBTilesFile metadata) ->
  metadata !! "center" = Some center ->
  length (Py.split ","%char center) ≠ 3%nat
  ∨ (∃ part, part ∈ Py.split ","%char center ∧ py_float part = None) ->
  load_mbtiles mbtiles w
  = (Raise ValueError, set_map_source (MBTilesCompositeMapSource (mbtiles_paths w)) w).
Proof.
  intros Hfile Hcenter Hbad.
  unfold load_mbtiles, MBTilesReader_metadata. unfold_monad. cbn.
  by rewrite Hfile, Hcenter, (unpack_center_rejects _ Hbad).
Qed.

(** A package with a good [center] whose [minzoom] is no integer:
    [load_mbtiles] raises [ValueError] after the transition to the
    center has started, and the zoom is not set. *)
Theorem load_mbtiles_malformed_minzoom
    (mbtiles : string) (w : World float) (metadata : gmap string string)
    (center minzoom : string) (longitude latitude zoom_hint : float) :
  assoc (Py.os_path_join mbtiles_directory mbtiles) (fs w)
    = Some (MBTilesFile metadata) ->
  metadata !! "center" = Some center ->
  unpack_center center = Ok (longitude, latitude, zoom_hint) ->
  metadata !! "minzoom" = Some minzoom ->
  py_int minzoom = None ->
  let '(r, w') := load_mbtiles mbtiles w in
  r = Raise ValueError
  ∧ animations w'
    = animations w ++ [(MapViewWidget, transition (zoom w) latitude longitude)]
  ∧ zoom w' = zoom w
  ∧ map_source w' = MBTilesCompositeMapSource (mbtiles_paths w).
Proof.
  intros Hfile Hcenter Hunpack Hmin Hint.
  unfold load_mbtiles, MBTilesReader_metadata. unfold_monad. cbn.
  rewrite Hfile, Hcenter, Hunpack. cbn. unfold get_min_zoom. rewrite Hmin, Hint.
  by repeat split.
Qed.

(** A package whose [center] reads "lon,lat,zoom": the transition goes
    to (lat, lon), the two swapped with respect to the metadata; its
    last stage returns to the zoom before the load and not to the zoom
    of the metadata, which is parsed and dropped; and the zoom is set
    at once to [minzoom] when the metadata has an integer one, to 12
    when it has none. *)
Theorem load_mbtiles_center_order
    (mbtiles : string) (w : World float) (metadata : gmap string string)
    (s_lon s_lat s_zoom : string) (longitude latitude zoom_hint : float) (min_zoom : Z) :
  assoc (Py.os_path_join mbtiles_directory mbtiles) (fs w)
    = Some (MBTilesFile metadata) ->
  metadata !! "center" = Some (s_lon +:+ "," +:+ s_lat +:+ "," +:+ s_zoom) ->
  Py.contains ","%char s_lon = false ->
  Py.contains ","%char s_lat = false ->
  Py.contains ","%char s_zoom = false ->
  py_float s_lon = Some longitude ->
  py_float s_lat = Some latitude ->
  py_float s_zoom = Some zoom_hint ->
  (metadata !! "minzoom" = None ∧ min_zoom = 12
   ∨ ∃ m, metadata !! "minzoom" = Some m ∧ py_int m = Some min_zoom) ->
  let '(r, w') := load_mbtiles mbtiles w in
  r = Ok tt
  ∧ animations w'
    = animations w
      ++ [(MapViewWidget,
           Sequence
             (Parallel (Anim (animated_zoom_property 5) 1)
                       (Anim (animated_latlon_property latitude longitude) 1))
             (Anim (animated_zoom_property (zoom w)) 1))]
  ∧ zoom w' = min_zoom
  ∧ map_source w' = MBTilesCompositeMapSource (mbtiles_paths w).
Proof.
  intros Hfile Hcenter H1 H2 H3 Hlon Hlat Hzoom Hmin.
  assert (Hunpack : unpack_center (s_lon +:+ "," +:+ s_lat +:+ "," +:+ s_zoom)
                    = Ok (longitude, latitude, zoom_hint)).
  { unfold unpack_center.
    change ("," +:+ s_lat +:+ "," +:+ s_zoom)
      with (String ","%char (s_lat +:+ String ","%char s_zoom)).
    rewrite (split_component _ _ _ H1), (split_component _ _ _ H2), (split_last _ _ H3).
    cbn. by rewrite Hlon, Hlat, Hzoom. }
  assert (Hget : get_min_zoom metadata = Ok min_zoom).
  { unfold get_min_zoom. destruct Hmin as [[-> ->]|(m & -> & ->)]; reflexivity. }
  rewrite (load_mbtiles_centered _ _ _ _ _ _ _ _ Hfile Hcenter Hunpack Hget).
  by repeat split.
Qed.

End PackagesMore.

(** ** The packages of the directory *)

Section Matching.










End Matching.

Section Directory.
Context {float : Type} `{!Host float}.









End Directory.

(** ** The further statements on concrete worlds *)

Section ConcreteMore.
Import Sample Scenes.

(** A message over a running download: once it expires only the probe
    is left on the clock. *)
Lemma status_message_expires_witness :
  clock_ids_fresh running
  ∧ let '(r, w2) :=
      @Clock_tick Q (mkClockEvent 2 call_clean_status_message 10 false)
        (@update_status_message Q "Saved" 10 running).2 in
    r = Ok tt ∧ status_message w2 = "" ∧ pending_cleanups w2 = []
    ∧ other_events w2
      = [mkClockEvent 0 (call_probe_mb_tiles_builder_thread 0 0) (1 # 2) true].
Proof.
  assert (Hfresh : clock_ids_fresh running).
  { intros ev Hev. cbn in Hev.
    repeat (apply elem_of_cons in Hev as [->|Hev]; [cbn; lia|]).
    by apply elem_of_nil in Hev. }
  split; [exact Hfresh|].
  pose proof (@status_message_expires Q "Saved" 10 running Hfresh) as H.
  cbv zeta in H. change (clock_created running) with 2%nat in H.
  destruct (Clock_tick (mkClockEvent 2 call_clean_status_message 10 false)
              (update_status_message "Saved" 10 running).2) as [r w2].
  destruct H as (_ & Hr & Hm & Hp & Ho & _).
  split; [exact Hr|]. split; [exact Hm|]. split; [exact Hp|]. exact Ho.
Defined.

(** The running download is polled again. *)
Lemma probe_live_thread_keeps_polling_witness :
  (is_alive <$> threads running !! 0%nat) = Some true
  ∧ let probe := mkClockEvent 0 (call_probe_mb_tiles_builder_thread 0 0) (1 # 2) true in
    let '(r, w') := @Clock_tick Q probe running in
    r = Ok tt ∧ status_message w' = "Downloading tiles 4/10" ∧ probe ∈ clock w'.
Proof.
  split; [reflexivity|]. intros probe.
  pose proof (@probe_live_thread_keeps_polling Q 0 0 running _ _ probe
                eq_refl eq_refl eq_refl) as H.
  specialize (H ltac:(by left) eq_refl eq_refl). destruct H as [_ H].
  destruct (Clock_tick probe running) as [r w']. exact H.
Defined.

(** Of two downloads the dead one is cancelled and the running one
    stays. *)
Lemma probe_cancel_spares_others_witness :
  (is_alive <$> threads two_downloads !! 0%nat) = Some false
  ∧ mkClockEvent 1 (call_probe_mb_tiles_builder_thread 1 1) (1 # 2) true
    ∈ clock (@Clock_tick Q
               (mkClockEvent 0 (call_probe_mb_tiles_builder_thread 0 0) (1 # 2) true)
               two_downloads).2.
Proof.
  split; [reflexivity|].
  apply (@probe_cancel_spares_others Q 0 0 two_downloads _ _
           (mkClockEvent 0 (call_probe_mb_tiles_builder_thread 0 0) (1 # 2) true)
           (mkClockEvent 1 (call_probe_mb_tiles_builder_thread 1 1) (1 # 2) true)
           eq_refl eq_refl eq_refl eq_refl eq_refl).
  - right. by left.
  - cbn. lia.
  - reflexivity.
Defined.

(** Deleting a package that is not there. *)
Lemma download_for_offline_delete_missing_witness :
  isfile "/data/app/mbtiles/Nice.mbtiles" stocked = false
  ∧ @download_for_offline Q "/data/app/mbtiles/Nice.mbtiles" paris_bbox offline_levels
      true stocked
    = (Raise (OSError "/data/app/mbtiles/Nice.mbtiles"), stocked).
Proof.
  split; [reflexivity|].
  by apply (@download_for_offline_delete_missing Q).
Defined.

(** Overriding the package of Paris. *)
Lemma override_confirmed_replaces_file_witness :
  path_exists (@mbtiles_directory Q (host true)) stocked = true
  ∧ isfile paris_path stocked = true
  ∧ let w1 :=
      (@prepare_download_for_offline2 Q (host true)
         "Paris.mbtiles" paris_bbox offline_levels stocked).2 in
    let '(r, w2) :=
      @ConfirmPopup_on_yes Q (override_popup paris_path paris_bbox offline_levels) w1 in
    r = Ok tt ∧ path_exists paris_path w2 = false
    ∧ threads w2 = [mkThread 0 false true].
Proof.
  split; [reflexivity|]. split; [reflexivity|].
  pose proof (@override_confirmed_replaces_file Q (host true)
                "Paris.mbtiles" paris_bbox offline_levels stocked eq_refl eq_refl) as H.
  cbv zeta in H |- *. destruct H as [_ H].
  change (Py.os_path_join (@mbtiles_directory Q (host true)) "Paris.mbtiles")
    with paris_path in H.
  destruct (ConfirmPopup_on_yes (override_popup paris_path paris_bbox offline_levels)
              (prepare_download_for_offline2 "Paris.mbtiles" paris_bbox offline_levels
                 stocked).2) as [r w2].
  destruct H as (Hr & Hgone & _ & Ht). by repeat split.
Defined.

(** Overriding what is a directory. *)
Lemma override_confirmed_on_directory_witness :
  path_exists (@mbtiles_directory Q (host true)) with_folder = true
  ∧ assoc "/data/app/mbtiles/Alps.mbtiles" (fs with_folder) = Some Dir
  ∧ let w1 :=
      (@prepare_download_for_offline2 Q (host true)
         "Alps.mbtiles" paris_bbox offline_levels with_folder).2 in
    @ConfirmPopup_on_yes Q
      (override_popup "/data/app/mbtiles/Alps.mbtiles" paris_bbox offline_levels) w1
    = (Raise (OSError "/data/app/mbtiles/Alps.mbtiles"), w1).
Proof.
  split; [reflexivity|]. split; [reflexivity|].
  exact (proj2 (@override_confirmed_on_directory Q (host true)
                  "Alps.mbtiles" paris_bbox offline_levels with_folder eq_refl eq_refl)).
Defined.

(** Asking twice for Nice. *)
Lemma prepare_download_for_offline2_twice_witness :
  path_exists (@mbtiles_directory Q (host true)) stocked = true
  ∧ path_exists "/data/app/mbtiles/Nice.mbtiles" stocked = false
  ∧ let w1 :=
      (@prepare_download_for_offline2 Q (host true)
         "Nice.mbtiles" paris_bbox offline_levels stocked).2 in
    let '(r, w2) :=
      @prepare_download_for_offline2 Q (host true)
        "Nice.mbtiles" paris_bbox offline_levels w1 in
    r = Ok tt
    ∧ map filepath (builders w2)
      = ["/data/app/mbtiles/Nice.mbtiles"; "/data/app/mbtiles/Nice.mbtiles"]
    ∧ threads w2 = [mkThread 0 false true; mkThread 1 false true].
Proof.
  split; [reflexivity|]. split; [reflexivity|].
  pose proof (@prepare_download_for_offline2_twice Q (host true)
                "Nice.mbtiles" paris_bbox offline_levels stocked eq_refl eq_refl) as H.
  cbv zeta in H |- *.
  destruct (prepare_download_for_offline2 "Nice.mbtiles" paris_bbox offline_levels
              (prepare_download_for_offline2 "Nice.mbtiles" paris_bbox offline_levels
                 stocked).2) as [r w2].
  destruct H as (Hr & _ & Hb & Ht). by repeat split.
Defined.

(** Paris is downloaded as [Paris.mbtiles]. *)
Lemma prepare_download_for_offline1_city_request_witness :
  @geocode Q (host true) "Paris" = GeocodeFound paris
  ∧ address paris = "Paris" +:+ "," +:+ " Ile-de-France, France"
  ∧ @geopy_bbox_to_bbox Q (host true) (raw_boundingbox paris) = Ok paris_bbox
  ∧ @prepare_download_for_offline1 Q (host true) "Paris" fresh
    = @prepare_download_for_offline2 Q (host true) "Paris.mbtiles" paris_bbox
        [12; 13; 14; 15]
        (set_animations
           [(MapViewWidget, transition 8 (4885 # 100) (235 # 100))] fresh).
Proof.
  split; [reflexivity|]. split; [reflexivity|]. split; [reflexivity|].
  apply (@prepare_download_for_offline1_city_request Q (host true)
           "Paris" fresh paris "Paris" paris_bbox);
    [reflexivity|reflexivity|reflexivity| |reflexivity].
  right. by exists " Ile-de-France, France".
Defined.

(** A city with a bounding box of three entries. *)
Lemma prepare_download_for_offline1_bad_bbox_witness :
  @geopy_bbox_to_bbox Q host_cropped (raw_boundingbox cropped) = Raise ValueError
  ∧ let '(r, w') := @prepare_download_for_offline1 Q host_cropped "Nice" stocked in
    r = Raise ValueError
    ∧ animations w' = [(MapViewWidget, transition 8 (4370 # 100) (727 # 100))]
    ∧ threads w' = [].
Proof.
  split; [reflexivity|].
  pose proof (@prepare_download_for_offline1_bad_bbox Q host_cropped
                "Nice" stocked cropped ValueError eq_refl eq_refl eq_refl) as H.
  destruct (prepare_download_for_offline1 "Nice" stocked) as [r w'].
  destruct H as (Hr & Ha & _ & Ht & _). by repeat split.
Defined.


(** A center of two numbers. *)
Lemma load_mbtiles_malformed_center_witness :
  bad_center_metadata !! "center" = Some "2.35,48.85"
  ∧ length (Py.split ","%char "2.35,48.85") ≠ 3%nat
  ∧ (@load_mbtiles Q (host true) "Cut.mbtiles" odd_packages).1 = Raise ValueError.
Proof.
  split; [reflexivity|]. split; [vm_compute; lia|].
  rewrite (@load_mbtiles_malformed_center Q (host true) "Cut.mbtiles" odd_packages
             bad_center_metadata "2.35,48.85" eq_refl eq_refl);
    [reflexivity|].
  left. vm_compute. lia.
Defined.

(** A minimum zoom spelled out. *)
Lemma load_mbtiles_malformed_minzoom_witness :
  bad_minzoom_metadata !! "minzoom" = Some "twelve"
  ∧ @py_int Q (host true) "twelve" = None
  ∧ let '(r, w') := @load_mbtiles Q (host true) "Words.mbtiles" odd_packages in
    r = Raise ValueError
    ∧ animations w' = [(MapViewWidget, transition 8 (4885 # 100) (235 # 100))]
    ∧ zoom w' = 8.
Proof.
  split; [reflexivity|]. split; [reflexivity|].
  pose proof (@load_mbtiles_malformed_minzoom Q (host true) "Words.mbtiles" odd_packages
                bad_minzoom_metadata "2.35,48.85,12" "twelve"
                (235 # 100) (4885 # 100) (12 # 1)
                eq_refl eq_refl eq_refl eq_refl eq_refl) as H.
  destruct (load_mbtiles "Words.mbtiles" odd_packages) as [r w'].
  destruct H as (Hr & Ha & Hz & _). by repeat split.
Defined.

(** A center and no minimum zoom. *)
Lemma load_mbtiles_center_order_witness :
  no_minzoom_metadata !! "center" = Some ("2.35" +:+ "," +:+ "48.85" +:+ "," +:+ "12")
  ∧ no_minzoom_metadata !! "minzoom" = None
  ∧ let '(r, w') := @load_mbtiles Q (host true) "Plain.mbtiles" odd_packages in
    r = Ok tt
    ∧ animations w' = [(MapViewWidget, transition 8 (4885 # 100) (235 # 100))]
    ∧ zoom w' = 12.
Proof.
  split; [reflexivity|]. split; [reflexivity|].
  pose proof (@load_mbtiles_center_order Q (host true) "Plain.mbtiles" odd_packages
                no_minzoom_metadata "2.35" "48.85" "12"
                (235 # 100) (4885 # 100) (12 # 1) 12
                eq_refl eq_refl eq_refl eq_refl eq_refl eq_refl eq_refl eq_refl
                (or_introl (conj eq_refl eq_refl))) as H.
  destruct (load_mbtiles "Plain.mbtiles" odd_packages) as [r w'].
  destruct H as (Hr & Ha & Hz & _). by repeat split.
Defined.


Example available_offline_maps_stocked :
  @available_offline_maps Q (host true) stocked
  = ["World.mbtiles"; "Paris.mbtiles"; "Lyon.mbtiles"].
Proof. reflexivity. Qed.

Example available_offline_maps_with_folder :
  @available_offline_maps Q (host true) with_folder = ["Alps.mbtiles"; "Paris.mbtiles"].
Proof. reflexivity. Qed.

End ConcreteMore.
